(** * anaconda_packaging_utils.api: the PyPi and JIRA API clients

    A shallow embedding of [anaconda_packaging_utils/api/pypi_api.py] (and of
    the exception class it shares with [jira_api.py]), with the properties of
    the metadata normalisation proved over it.

    Layout: the JSON data model and the Python primitives the module uses;
    the JSON schemas of the module and the fragment of JSON Schema they are
    written in; the module's records and functions; the vocabulary of the
    statements; concrete instances of the external collaborators with sample
    data; and then the lemmas and theorems. *)

From stdpp Require Import base option list strings gmap fin_maps pretty.
From Stdlib Require Import ZArith Ascii String.

Local Open Scope string_scope.
Local Open Scope list_scope.
Local Open Scope Z_scope.
Set Warnings "-register-all".
Set Warnings "-clear-no-such-hyp".

(** ** JSON values, as [response.json()] returns them *)

(** The value of a Python [float]: the finite binary number [m * 2^e], an
    infinity or a NaN (the JSON parser of Python reads [Infinity] and [NaN]
    too). *)
Inductive pyfloat : Type :=
| Finite (m e : Z)
| Infinite (negative : bool)
| NaN.

(** [x.is_integer()]. *)
Definition float_is_integer (x : pyfloat) : bool :=
  match x with
  | Finite m e => if Z.leb 0 e then true else Z.eqb (m mod 2 ^ (- e)) 0
  | _ => false
  end.

(** [int(x)]: the value cut towards zero; [None] when it raises, on an
    infinity ([OverflowError]) or a NaN ([ValueError]). *)
Definition float_int (x : pyfloat) : option Z :=
  match x with
  | Finite m e => Some (if Z.leb 0 e then m * 2 ^ e else Z.quot m (2 ^ (- e)))
  | _ => None
  end.

(** [JsonType]: the Python value of a parsed JSON document.  A JSON object is
    a [dict]; it is kept as the list of its items, in the dict's iteration
    order, since [fetch_package_metadata] iterates over one.  A [dict] has no
    repeated key: see [dict_wf].  A number is an [int] or a [float]. *)
Inductive json : Type :=
| JNull
| JBool (b : bool)
| JInt (z : Z)
| JFloat (x : pyfloat)
| JStr (s : string)
| JArr (xs : list json)
| JObj (items : list (string * json)).

(** [d.get(k)] of a dict given by its items. *)
Fixpoint dict_get (k : string) (items : list (string * json)) : option json :=
  match items with
  | [] => None
  | (k', v) :: rest => if String.eqb k k' then Some v else dict_get k rest
  end.

(** [k in d]. *)
Definition dict_has (k : string) (items : list (string * json)) : bool :=
  match dict_get k items with Some _ => true | None => false end.

(** The keys of a Python dict are pairwise distinct. *)
Definition dict_wf (items : list (string * json)) : Prop := NoDup items.*1.

(** The items of [j] when it is a dict, the elements when it is a list. *)
Definition obj_items (j : json) : list (string * json) :=
  match j with JObj items => items | _ => [] end.

Definition arr_elems (j : json) : list json :=
  match j with JArr xs => xs | _ => [] end.

(** ** Outcomes of a call *)

(** A call returns, raises the module's [ApiException], or lets another
    Python exception escape ([KeyError], [TypeError]: the functions read the
    JSON unchecked and document schema validity as their precondition).
    [Crash] stands for that last case and for input the schema excludes on
    which Python would carry on with a value of another type; it names the
    operation that left the model. *)
Inductive result (A : Type) : Type :=
| Ok (a : A)
| ApiException (message : string)
| Crash (operation : string).
Arguments Ok {A} a.
Arguments ApiException {A} message.
Arguments Crash {A} operation.

#[global] Instance result_ret : MRet result := fun A a => Ok a.
#[global] Instance result_bind : MBind result := fun A B f r =>
  match r with
  | Ok a => f a
  | ApiException m => ApiException m
  | Crash o => Crash o
  end.
#[global] Instance result_fmap : FMap result := fun A B f r =>
  match r with
  | Ok a => Ok (f a)
  | ApiException m => ApiException m
  | Crash o => Crash o
  end.

(** ** Python primitives *)

(** [data[k]]. *)
Definition getitem (data : json) (k : string) : result json :=
  match data with
  | JObj items =>
      match dict_get k items with
      | Some v => Ok v
      | None => Crash "KeyError"
      end
  | _ => Crash "TypeError"
  end.

(** [data[k1][k2]]. *)
Definition getitem2 (data : json) (k1 k2 : string) : result json :=
  inner ← getitem data k1; getitem inner k2.

(** [str(v)] for a value the schema types as a string. *)
Definition py_str (v : json) : result string :=
  match v with
  | JStr s => Ok s
  | _ => Crash "str"
  end.

(** [str(v or "")] for a value the schema types as a string or null: a falsy
    value ([None], the empty string) gives the empty string. *)
Definition py_str_or_empty (v : json) : result string :=
  match v with
  | JNull => Ok ""
  | JStr s => Ok s
  | _ => Crash "str"
  end.

(** [int(v)] for a value the schema types as an integer: an [int], or a
    [float] of integral value.  On any number it is Python's [int]; the
    exception it raises on an infinity or a NaN escapes. *)
Definition py_int (v : json) : result Z :=
  match v with
  | JInt z => Ok z
  | JBool b => Ok (if b then 1 else 0)
  | JFloat x => match float_int x with Some z => Ok z | None => Crash "int" end
  | _ => Crash "int"
  end.

(** [v == s] for a string [s]: only a string equals a string. *)
Definition json_eq_str (v : json) (s : string) : bool :=
  match v with
  | JStr s' => String.eqb s' s
  | _ => false
  end.

(** The list a [for] loop iterates over, where the schema gives an array. *)
Definition py_list (v : json) : result (list json) :=
  match v with
  | JArr xs => Ok xs
  | _ => Crash "iter"
  end.

(** The dict behind [k in v] and [v.items()], where the schema gives an
    object. *)
Definition py_dict (v : json) : result (list (string * json)) :=
  match v with
  | JObj items => Ok items
  | _ => Crash "dict"
  end.

(** [s.find(sub)]: the lowest index at which [sub] occurs in [s], or -1. *)
Fixpoint find_from (i : Z) (s sub : string) : Z :=
  if String.prefix sub s then i
  else match s with
       | EmptyString => -1
       | String _ s' => find_from (i + 1) s' sub
       end.

Definition str_find (s sub : string) : Z := find_from 0 s sub.

(** Truth value of an [int] in a condition. *)
Definition truthy (z : Z) : bool := negb (Z.eqb z 0).

(** [sub in s] for strings. *)
Definition str_contains (s sub : string) : bool := negb (Z.eqb (str_find s sub) (-1)).

(** ** The fragment of JSON Schema the module's schemas are written in *)

(** The values of a schema's ["type"] keyword that occur in the module. *)
Inductive jtype : Type := t_object | t_array | t_string | t_integer | t_null.

(** The regular expressions that occur as ["patternProperties"] keys. *)
Inductive regex : Type :=
| re_any_line.  (* "^.*$" *)

(** A schema: the keywords the module uses.  An absent keyword is the empty
    list, [None], or [true] for ["additionalProperties"]. *)
Inductive schema : Type := Schema {
  sch_type : list jtype;
  sch_required : list string;
  sch_properties : list (string * schema);
  sch_patternProperties : list (regex * schema);
  sch_additionalProperties : bool;
  sch_items : option schema
}.

(** The newline character. *)
Definition LF : ascii := ascii_of_nat 10.

(** [s] has no newline except, possibly, as its last character. *)
Fixpoint one_line (s : string) : bool :=
  match s with
  | EmptyString => true
  | String c s' =>
      if Ascii.eqb c LF
      then match s' with EmptyString => true | _ => false end
      else one_line s'
  end.

(** [re.search(r, s)] succeeds.  ["^.*$"]: [.] matches no newline and [$]
    matches at the end or before a final newline. *)
Definition re_search (r : regex) (s : string) : bool :=
  match r with
  | re_any_line => one_line s
  end.

(** The instance has the JSON type [t], as [jsonschema.validate] decides it
    for a schema without ["$schema"]: a Python [bool] is no integer, and a
    [float] of integral value is one. *)
Definition has_type (t : jtype) (j : json) : bool :=
  match t, j with
  | t_object, JObj _ => true
  | t_array, JArr _ => true
  | t_string, JStr _ => true
  | t_integer, JInt _ => true
  | t_integer, JFloat x => float_is_integer x
  | t_null, JNull => true
  | _, _ => false
  end.

Definition is_object (j : json) : bool :=
  match j with JObj _ => true | _ => false end.

(** [schema_validate(j, s)] raises nothing.  Every keyword but ["type"]
    constrains only instances of the kind it speaks about: ["required"],
    ["properties"], ["patternProperties"] and ["additionalProperties"] an
    object, ["items"] an array. *)
Fixpoint validate (s : schema) (j : json) {struct s} : bool :=
  match s with
  | Schema tys req props pats addl items =>
      (match tys with [] => true | _ => existsb (fun t => has_type t j) tys end)
      && (negb (is_object j)
          || forallb (fun k => dict_has k (obj_items j)) req)
      && (fix properties (ps : list (string * schema)) : bool :=
            match ps with
            | [] => true
            | (k, sub) :: ps' =>
                match dict_get k (obj_items j) with
                | Some v => validate sub v
                | None => true
                end && properties ps'
            end) props
      && (fix patterns (ps : list (regex * schema)) : bool :=
            match ps with
            | [] => true
            | (r, sub) :: ps' =>
                forallb (fun kv : string * json =>
                           if re_search r kv.1 then validate sub kv.2 else true)
                        (obj_items j)
                && patterns ps'
            end) pats
      && (addl
          || forallb (fun kv : string * json =>
                        existsb (fun p : string * schema => String.eqb kv.1 p.1) props
                        || existsb (fun p : regex * schema => re_search p.1 kv.1) pats)
                     (obj_items j))
      && match items with
         | Some sub => forallb (validate sub) (arr_elems j)
         | None => true
         end
  end.

(** A schema that only fixes the ["type"]. *)
Definition typed (tys : list jtype) : schema := Schema tys [] [] [] true None.

(** [VersionMetadata.get_schema()]. *)
Definition VersionMetadata_get_schema : schema :=
  Schema [t_object]
    ["digests"; "filename"; "python_version"; "size"; "upload_time_iso_8601"; "url"]
    [ ("digests",
       Schema [t_object] ["md5"; "sha256"]
         [ ("md5", typed [t_string]); ("sha256", typed [t_string]) ]
         [] true None);
      ("filename", typed [t_string]);
      ("python_version", typed [t_string]);
      ("size", typed [t_integer]);
      ("upload_time_iso_8601", typed [t_string]);
      ("url", typed [t_string]) ]
    [] true None.

(** [PackageInfo.get_schema(requires_releases)]. *)
Definition PackageInfo_get_schema (requires_releases : bool) : schema :=
  Schema [t_object]
    (["info"; "urls"] ++ (if requires_releases then ["releases"] else []))
    [ ("info",
       Schema [t_object]
         ["description"; "description_content_type"; "docs_url"; "license"; "name";
          "package_url"; "project_url"; "project_urls"; "release_url";
          "requires_python"; "summary"; "version"]
         [ ("description", typed [t_string; t_null]);
           ("description_content_type", typed [t_string; t_null]);
           ("docs_url", typed [t_string; t_null]);
           ("license", typed [t_string]);
           ("name", typed [t_string]);
           ("package_url", typed [t_string]);
           ("project_url", typed [t_string]);
           ("project_urls",
            Schema [t_object] []
              [ ("Homepage", typed [t_string]); ("Source", typed [t_string]) ]
              [] true None);
           ("release_url", typed [t_string]);
           ("requires_python", typed [t_string]);
           ("summary", typed [t_string; t_null]);
           ("version", typed [t_string]) ]
         [] true None);
      ("releases",
       Schema [t_object] [] []
         [ (re_any_line,
            Schema [t_array] [] [] [] true (Some VersionMetadata_get_schema)) ]
         false None);
      ("urls",
       Schema [t_array] [] [] [] true (Some VersionMetadata_get_schema)) ]
    [] true None.

(** ** External collaborators *)

(** What the module reads of a [requests.Response]: the status code, the
    header lookup (by name, as the case-insensitive [response.headers]
    answers it) and [response.json()], [None] when it raises. *)
Record Response : Type := {
  status_code : Z;
  headers : string → option string;
  json_body : option json
}.

(** The libraries the module calls and the package's own
    [cryptography.utils], which are not part of the module:
    [datetime.datetime] and its [fromisoformat] ([None] when it raises),
    [crypto_utils.is_valid_md5], [crypto_utils.is_valid_sha256], and
    [requests.get] with its timeout ([None] when it raises). *)
Class Externals : Type := {
  datetime : Type;
  fromisoformat : string → option datetime;
  is_valid_md5 : string → bool;
  is_valid_sha256 : string → bool;
  requests_get : string → Z → option Response
}.

(** ** jira_api.py: the exception class *)

Module jira_api.

(** [ApiException.__init__]: the message the exception is built with. *)
Definition ApiException__init__ (message : string) : string :=
  if truthy (Z.of_nat (String.length message)) then message
  else "An unknown API issue was encountered.".

End jira_api.

(** ** pypi_api.py *)

Definition BASE_URL : string := "https://pypi.python.org/pypi".
Definition HTTP_REQ_TIMEOUT : Z := 60.

(** [ApiException.__init__]: the message the exception is built with. *)
Definition ApiException__init__ (message : string) : string :=
  if truthy (Z.of_nat (String.length message)) then message
  else "An unknown API issue was encountered.".

(** [raise ApiException(message)]. *)
Definition raise {A : Type} (message : string) : result A :=
  ApiException (ApiException__init__ message).

Definition _calc_package_metadata_url (package : string) : string :=
  BASE_URL +:+ "/" +:+ package +:+ "/json".

Definition _calc_package_version_metadata_url (package version : string) : string :=
  BASE_URL +:+ "/" +:+ package +:+ "/" +:+ version +:+ "/json".

(** [_check_for_empty_field]; a [None] value prints as [None]. *)
Definition _check_for_empty_field (field : string) (value : option string) : result unit :=
  match value with
  | None => raise ("`" +:+ field +:+ "` field is empty: None")
  | Some v =>
      if Z.eqb (Z.of_nat (String.length v)) 0
      then raise ("`" +:+ field +:+ "` field is empty: " +:+ v)
      else Ok tt
  end.

(** The module's records.  [datetime] is the type of [datetime.datetime]
    values. *)
Record VersionMetadata {datetime : Type} : Type := {
  md5 : string;
  sha256 : string;
  filename : string;
  python_version : string;
  size : Z;
  upload_time : datetime;
  url : string
}.
Arguments VersionMetadata : clear implicits.

Record PackageInfo {datetime : Type} : Type := {
  description : string;
  description_content_type : string;
  docs_url : string;
  license : string;
  name : string;
  package_url : string;
  project_url : string;
  homepage_url : string;
  source_url : string;
  release_url : string;
  requires_python : string;
  summary : string;
  version : string;
  source_metadata : VersionMetadata datetime
}.
Arguments PackageInfo : clear implicits.

Record PackageMetadata {datetime : Type} : Type := {
  info : PackageInfo datetime;
  releases : gmap string (VersionMetadata datetime)
}.
Arguments PackageMetadata : clear implicits.

Section pypi_api.
Context `{E : Externals}.

(** [_make_request_and_validate].  ([requests.get] returns a response or
    raises, so the guard on a response that was never set has no case.) *)
Definition _make_request_and_validate (endpoint : string) (sch : schema) : result json :=
  match requests_get endpoint HTTP_REQ_TIMEOUT with
  | None => raise "GET request failed."
  | Some response =>
      if negb (Z.eqb (status_code response) 200)
      then raise ("API returned a " +:+ pretty (status_code response) +:+ " HTTP status code")
      else
        match headers response "content-type" with
        | None => raise "API returned with no `content-type` header."
        | Some content_type =>
            if negb (String.eqb content_type "application/json")
            then raise ("API returned a non-JSON `content-type`: " +:+ content_type)
            else
              match json_body response with
              | None => raise "Failed to parse JSON response."
              | Some response_json =>
                  if validate sch response_json then Ok response_json
                  else raise "Returned JSON does not match minimum schema."
              end
        end
  end.

(** [_parse_version_metadata].  The second [int(size_str)] is applied to an
    [int] and has no failing case. *)
Definition _parse_version_metadata (data : json) : result (VersionMetadata datetime) :=
  time_str ← getitem data "upload_time_iso_8601" ≫= py_str;
  time ← match fromisoformat time_str with
         | Some t => Ok t
         | None => raise ("Failed to convert timestamp: " +:+ time_str)
         end;
  size_str ← getitem data "size" ≫= py_int;
  digest_md5 ← getitem2 data "digests" "md5" ≫= py_str;
  digest_sha256 ← getitem2 data "digests" "sha256" ≫= py_str;
  file ← getitem data "filename" ≫= py_str;
  tag ← getitem data "python_version" ≫= py_str;
  link ← getitem data "url" ≫= py_str_or_empty;
  let parsed :=
    {| md5 := digest_md5; sha256 := digest_sha256; filename := file;
       python_version := tag; size := size_str;
       upload_time := time; url := link |} in
  if negb (is_valid_md5 parsed.(md5))
  then raise ("VersionMetadata MD5 hash is invalid: " +:+ parsed.(md5))
  else if negb (is_valid_sha256 parsed.(sha256))
  then raise ("VersionMetadata SHA-256 hash is invalid: " +:+ parsed.(md5))
  else
    _ ← _check_for_empty_field "VersionMetadata.filename" (Some parsed.(filename));
    _ ← _check_for_empty_field "VersionMetadata.python_version" (Some parsed.(python_version));
    Ok parsed.

(** [artifact["python_version"] == "source"]. *)
Definition is_source (artifact : json) : result bool :=
  pv ← getitem artifact "python_version";
  Ok (json_eq_str pv "source").

(** The first loop of [_parse_package_info]: the metadata of the first
    entry of [urls] tagged as source, [None] when the loop ends without a
    [break]. *)
Fixpoint source_of_urls (urls : list json) : result (option (VersionMetadata datetime)) :=
  match urls with
  | [] => Ok None
  | url :: urls' =>
      src ← is_source url;
      if (src : bool) then Some <$> _parse_version_metadata url
      else source_of_urls urls'
  end.

(** [_parse_package_info]. *)
Definition _parse_package_info (data : json) : result (PackageInfo datetime) :=
  urls ← getitem data "urls" ≫= py_list;
  found ← source_of_urls urls;
  match found with
  | None => raise "Source artifacts are not provided!"
  | Some version_metadata =>
      project_urls ← getitem2 data "info" "project_urls";
      links ← py_dict project_urls;
      homepage ← (if dict_has "Homepage" links
                  then getitem project_urls "Homepage" ≫= py_str
                  else Ok "");
      source ← (if dict_has "Source" links
                then getitem project_urls "Source" ≫= py_str
                else Ok "");
      let field (k : string) : result json := getitem2 data "info" k in
      f_description ← field "description" ≫= py_str_or_empty;
      f_description_content_type ← field "description_content_type" ≫= py_str_or_empty;
      f_docs_url ← field "docs_url" ≫= py_str_or_empty;
      f_license ← field "license" ≫= py_str;
      f_name ← field "name" ≫= py_str;
      f_package_url ← field "package_url" ≫= py_str;
      f_project_url ← field "project_url" ≫= py_str;
      f_release_url ← field "release_url" ≫= py_str;
      f_requires_python ← field "requires_python" ≫= py_str;
      f_summary ← field "summary" ≫= py_str_or_empty;
      f_version ← field "version" ≫= py_str;
      let parsed :=
        {| description := f_description;
           description_content_type := f_description_content_type;
           docs_url := f_docs_url; license := f_license; name := f_name;
           package_url := f_package_url; project_url := f_project_url;
           homepage_url := homepage; source_url := source;
           release_url := f_release_url; requires_python := f_requires_python;
           summary := f_summary; version := f_version;
           source_metadata := version_metadata |} in
      _ ← _check_for_empty_field "PackageInfo.license" (Some parsed.(license));
      _ ← _check_for_empty_field "PackageInfo.name" (Some parsed.(name));
      _ ← _check_for_empty_field "PackageInfo.package_url" (Some parsed.(package_url));
      _ ← _check_for_empty_field "PackageInfo.project_url" (Some parsed.(project_url));
      _ ← _check_for_empty_field "PackageInfo.release_url" (Some parsed.(release_url));
      _ ← _check_for_empty_field "PackageInfo.version" (Some parsed.(version));
      Ok parsed
  end.

(** The inner loop of [fetch_package_metadata] over one release's
    artifacts: [release_artifacts], the parsed source artifacts in the
    array's order. *)
Fixpoint source_artifacts (artifacts : list json) : result (list (VersionMetadata datetime)) :=
  match artifacts with
  | [] => Ok []
  | artifact :: artifacts' =>
      src ← is_source artifact;
      if (src : bool)
      then parsed ← _parse_version_metadata artifact;
           rest ← source_artifacts artifacts';
           Ok (parsed :: rest)
      else source_artifacts artifacts'
  end.

(** The [for ... else] over [release_artifacts]: the artifact at which the
    loop breaks, [None] when it runs to its [else]. *)
Fixpoint tar_artifact (release_artifacts : list (VersionMetadata datetime)) : option (VersionMetadata datetime) :=
  match release_artifacts with
  | [] => None
  | rel_artifact :: rest =>
      if truthy (str_find rel_artifact.(filename) ".tar") then Some rel_artifact
      else tar_artifact rest
  end.

(** The [if/elif/else] on [len(release_artifacts)]: the artifact stored
    under the release's version. *)
Definition select_artifact (release_artifacts : list (VersionMetadata datetime)) : result (VersionMetadata datetime) :=
  match release_artifacts with
  | [] => raise "API did not return any source artifacts."
  | [only] => Ok only
  | first :: _ =>
      match tar_artifact release_artifacts with
      | Some rel_artifact => Ok rel_artifact
      | None => Ok first
      end
  end.

(** The loop over [rel_json.items()], threading the [releases] dict. *)
Fixpoint scan_releases (rel_json : list (string * json))
    (releases : gmap string (VersionMetadata datetime)) : result (gmap string (VersionMetadata datetime)) :=
  match rel_json with
  | [] => Ok releases
  | (release, artifacts) :: rel_json' =>
      artifacts ← py_list artifacts;
      release_artifacts ← source_artifacts artifacts;
      chosen ← select_artifact release_artifacts;
      scan_releases rel_json' (<[release := chosen]> releases)
  end.

(** [fetch_package_metadata]. *)
Definition fetch_package_metadata (package : string) : result (PackageMetadata datetime) :=
  response_json ← _make_request_and_validate
                    (_calc_package_metadata_url package) (PackageInfo_get_schema true);
  parsed ← _parse_package_info response_json;
  let seeded : gmap string (VersionMetadata datetime) :=
    {[ parsed.(version) := parsed.(source_metadata) ]} in
  rel_json ← getitem response_json "releases" ≫= py_dict;
  scanned ← scan_releases rel_json seeded;
  if Z.eqb (Z.of_nat (base.size scanned)) 0
  then raise "API did not return any source information."
  else Ok {| info := parsed; releases := scanned |}.

(** [fetch_package_version_metadata]. *)
Definition fetch_package_version_metadata (package wanted : string) : result (PackageMetadata datetime) :=
  response_json ← _make_request_and_validate
                    (_calc_package_version_metadata_url package wanted)
                    (PackageInfo_get_schema false);
  parsed ← _parse_package_info response_json;
  Ok {| info := parsed;
        releases := {[ parsed.(version) := parsed.(source_metadata) ]} |}.

End pypi_api.

(** ** jira_api.py: the singleton client *)

Definition _JIRA_HOST_URL : string := "https://anaconda.atlassian.net/".

Section jira.
Context {JIRA ConfigData : Type}.

(** What [JiraApi] calls outside the module, as it answers at one moment:
    [ConfigData()], [data_store[key]] and [JIRA(url, basic_auth=(email,
    token))], each [None] when it raises. *)
Record JiraWorld : Type := {
  ConfigData_new : option ConfigData;
  ConfigData_getitem : ConfigData → string → option string;
  JIRA_new : string → string * string → option JIRA
}.

(** [raise ApiException(message)] in [jira_api]. *)
Definition jira_raise {A : Type} (message : string) : result A :=
  ApiException (jira_api.ApiException__init__ message).

(** [JiraApi.__init__], on the class attribute [JiraApi._jira]: the outcome
    and the attribute afterwards.  [ConfigData()] is called outside the
    [try], so that its exception escapes as it is. *)
Definition JiraApi__init__ (w : JiraWorld) (_jira : list JIRA) : result unit * list JIRA :=
  if Z.eqb (Z.of_nat (List.length _jira)) 0 then
    match w.(ConfigData_new) with
    | None => (Crash "ConfigData", _jira)
    | Some data_store =>
        match
          email ← w.(ConfigData_getitem) data_store "user_info.email";
          token ← w.(ConfigData_getitem) data_store "token.jira";
          w.(JIRA_new) _JIRA_HOST_URL (email, token)
        with
        | Some client => (Ok tt, _jira ++ [client])
        | None => (jira_raise "Failed to auth or connect to JIRA", _jira)
        end
    end
  else (Ok tt, _jira).

(** [JiraApi.access_jira]; [callback] answers [None] when it raises.  The
    read of [JiraApi._jira[0]] is inside the [try]. *)
Definition access_jira (callback : JIRA → option unit) (_jira : list JIRA) : result unit :=
  match _jira with
  | [] => jira_raise "`access_jira()` callback raised an exception"
  | client :: _ =>
      match callback client with
      | Some _ => Ok tt
      | None => jira_raise "`access_jira()` callback raised an exception"
      end
  end.

(** One [JiraApi()] after the other, each in the world of its moment: the
    outcomes and the class attribute at the end. *)
Fixpoint construct_each (ws : list JiraWorld) (_jira : list JIRA)
    : list (result unit) * list JIRA :=
  match ws with
  | [] => ([], _jira)
  | w :: ws' =>
      let step := JiraApi__init__ w _jira in
      let rest := construct_each ws' step.2 in
      (step.1 :: rest.1, rest.2)
  end.

End jira.
Arguments JiraWorld : clear implicits.

(** ** Vocabulary of the statements *)

(** *** Schema validation, keyword by keyword *)

(** The instance satisfies ["type"]. *)
Definition type_ok (tys : list jtype) (j : json) : bool :=
  match tys with [] => true | _ => existsb (fun t => has_type t j) tys end.

(** The instance satisfies one entry of ["properties"]. *)
Definition property_ok (j : json) (p : string * schema) : bool :=
  match dict_get p.1 (obj_items j) with
  | Some v => validate p.2 v
  | None => true
  end.

(** The instance satisfies one entry of ["patternProperties"]. *)
Definition pattern_ok (j : json) (p : regex * schema) : bool :=
  forallb (fun kv : string * json =>
             if re_search p.1 kv.1 then validate p.2 kv.2 else true)
          (obj_items j).

(** *** Typed views of schema-valid JSON *)


(** The same with the size as [int(data["size"])] reads it, whether the
    JSON number is an [int] or a [float]. *)
Definition artifact_values (data : json) (m s f p : string) (z : Z) (t u : string) : Prop :=
  getitem2 data "digests" "md5" = Ok (JStr m) ∧
  getitem2 data "digests" "sha256" = Ok (JStr s) ∧
  getitem data "filename" = Ok (JStr f) ∧
  getitem data "python_version" = Ok (JStr p) ∧
  getitem data "size" ≫= py_int = Ok z ∧
  getitem data "upload_time_iso_8601" = Ok (JStr t) ∧
  getitem data "url" = Ok (JStr u).

(** The artifact validates against the per-artifact schema. *)
Definition valid_artifact (u : json) : Prop :=
  validate VersionMetadata_get_schema u = true.

(** Every release is an array of schema-valid artifacts. *)
Definition valid_releases (rel : list (string * json)) : Prop :=
  Forall (λ kv : string * json, ∃ arts, kv.2 = JArr arts ∧ Forall valid_artifact arts) rel.

(** The JSON value of a field that may be null. *)
Definition nullable (o : option string) : json :=
  match o with Some s => JStr s | None => JNull end.

(** The strings under ["info"], by field; [None] is a null. *)
Record info_fields : Type := {
  i_description : option string;
  i_description_content_type : option string;
  i_docs_url : option string;
  i_license : string;
  i_name : string;
  i_package_url : string;
  i_project_url : string;
  i_project_urls : list (string * json);
  i_release_url : string;
  i_requires_python : string;
  i_summary : option string;
  i_version : string
}.

(** [data["info"]] holds the fields [i]. *)
Definition has_info (data : json) (i : info_fields) : Prop :=
  getitem2 data "info" "description" = Ok (nullable i.(i_description)) ∧
  getitem2 data "info" "description_content_type" = Ok (nullable i.(i_description_content_type)) ∧
  getitem2 data "info" "docs_url" = Ok (nullable i.(i_docs_url)) ∧
  getitem2 data "info" "license" = Ok (JStr i.(i_license)) ∧
  getitem2 data "info" "name" = Ok (JStr i.(i_name)) ∧
  getitem2 data "info" "package_url" = Ok (JStr i.(i_package_url)) ∧
  getitem2 data "info" "project_url" = Ok (JStr i.(i_project_url)) ∧
  getitem2 data "info" "project_urls" = Ok (JObj i.(i_project_urls)) ∧
  getitem2 data "info" "release_url" = Ok (JStr i.(i_release_url)) ∧
  getitem2 data "info" "requires_python" = Ok (JStr i.(i_requires_python)) ∧
  getitem2 data "info" "summary" = Ok (nullable i.(i_summary)) ∧
  getitem2 data "info" "version" = Ok (JStr i.(i_version)).

(** The link stored under [k] in the project links, if it is a string. *)
Definition link (project_urls : list (string * json)) (k : string) : string :=
  match dict_get k project_urls with
  | Some (JStr s) => s
  | _ => ""
  end.

(** A link that is present is a string. *)
Definition link_typed (project_urls : list (string * json)) (k : string) : Prop :=
  ∀ v, dict_get k project_urls = Some v → ∃ s, v = JStr s.

(** The fields [i] with other project links. *)
Definition relinked (i : info_fields) (pu : list (string * json)) : info_fields :=
  {| i_description := i.(i_description);
     i_description_content_type := i.(i_description_content_type);
     i_docs_url := i.(i_docs_url); i_license := i.(i_license); i_name := i.(i_name);
     i_package_url := i.(i_package_url); i_project_url := i.(i_project_url);
     i_project_urls := pu; i_release_url := i.(i_release_url);
     i_requires_python := i.(i_requires_python); i_summary := i.(i_summary);
     i_version := i.(i_version) |}.

(** A hexadecimal digit, of either case. *)
Definition is_hex_digit (c : ascii) : bool :=
  let n := N_of_ascii c in
  ((48 <=? n) && (n <=? 57) || (97 <=? n) && (n <=? 102) || (65 <=? n) && (n <=? 70))%N.

(** [s] is made of [digits] hexadecimal digits. *)
Definition hex_digits (digits : nat) (s : string) : bool :=
  Nat.eqb (String.length s) digits && forallb is_hex_digit (list_ascii_of_string s).

(** A source artifact with well-formed hashes: tagged ["source"], an MD5 of
    32 and a SHA-256 of 64 hexadecimal digits, a file name. *)
Definition hashed_source {datetime : Type} (vm : VersionMetadata datetime) : Prop :=
  vm.(python_version) = "source" ∧ hex_digits 32 vm.(md5) = true ∧
  hex_digits 64 vm.(sha256) = true ∧ vm.(filename) ≠ "".

(** *** Edited responses *)

(** [d[k] = v] on the items of a dict. *)
Fixpoint dict_set (k : string) (v : json) (items : list (string * json)) : list (string * json) :=
  match items with
  | [] => [(k, v)]
  | (k', v') :: rest =>
      if String.eqb k k' then (k, v) :: rest else (k', v') :: dict_set k v rest
  end.

(** The response [data] with [data["info"]["project_urls"]] replaced. *)
Definition with_project_urls (data : json) (project_urls : list (string * json)) : json :=
  match data with
  | JObj items =>
      match dict_get "info" items with
      | Some (JObj fields) =>
          JObj (dict_set "info" (JObj (dict_set "project_urls" (JObj project_urls) fields)) items)
      | _ => data
      end
  | _ => data
  end.

(** The response [data] with [data["releases"]] replaced. *)
Definition with_releases (data : json) (rel : json) : json :=
  match data with
  | JObj items => JObj (dict_set "releases" rel items)
  | _ => data
  end.

(** *** Outcomes and loop bodies *)

(** A call that neither returns nor raises [ApiException] left the model. *)
Definition no_crash {A} (r : result A) : Prop :=
  match r with Crash _ => False | _ => True end.

(** The six non-emptiness checks that end [_parse_package_info]. *)
Definition check_info (i : info_fields) : result unit :=
  _ ← _check_for_empty_field "PackageInfo.license" (Some i.(i_license));
  _ ← _check_for_empty_field "PackageInfo.name" (Some i.(i_name));
  _ ← _check_for_empty_field "PackageInfo.package_url" (Some i.(i_package_url));
  _ ← _check_for_empty_field "PackageInfo.project_url" (Some i.(i_project_url));
  _ ← _check_for_empty_field "PackageInfo.release_url" (Some i.(i_release_url));
  _check_for_empty_field "PackageInfo.version" (Some i.(i_version)).

Section views.
Context `{E : Externals}.

(** The record [_parse_package_info] builds from the fields and the source
    metadata. *)
Definition package_info_of (i : info_fields) (vm : VersionMetadata datetime) : PackageInfo datetime :=
  {| description := default "" i.(i_description);
     description_content_type := default "" i.(i_description_content_type);
     docs_url := default "" i.(i_docs_url);
     license := i.(i_license);
     name := i.(i_name);
     package_url := i.(i_package_url);
     project_url := i.(i_project_url);
     homepage_url := link i.(i_project_urls) "Homepage";
     source_url := link i.(i_project_urls) "Source";
     release_url := i.(i_release_url);
     requires_python := i.(i_requires_python);
     summary := default "" i.(i_summary);
     version := i.(i_version);
     source_metadata := vm |}.

(** The record [info] with the links of [pu]. *)
Definition with_links (pu : list (string * json)) (info : PackageInfo datetime) : PackageInfo datetime :=
  {| description := info.(description);
     description_content_type := info.(description_content_type);
     docs_url := info.(docs_url); license := info.(license); name := info.(name);
     package_url := info.(package_url); project_url := info.(project_url);
     homepage_url := link pu "Homepage"; source_url := link pu "Source";
     release_url := info.(release_url); requires_python := info.(requires_python);
     summary := info.(summary); version := info.(version);
     source_metadata := info.(source_metadata) |}.

(** Modelled from the spec: what [crypto_utils.is_valid_md5] and
    [crypto_utils.is_valid_sha256]
    ([anaconda_packaging_utils/cryptography/utils.py], not among the
    sources) accept.  The spec: the "MD5 string matches exact 32-hex-digit
    form, SHA-256 string matches exact 64-hex-digit form".  Only this much
    of it is stated: they accept nothing else. *)
Definition hash_validation_as_specified : Prop :=
  (∀ s, is_valid_md5 s = true → hex_digits 32 s = true) ∧
  (∀ s, is_valid_sha256 s = true → hex_digits 64 s = true).

(** What every parsed source artifact satisfies. *)
Definition source_invariant (vm : VersionMetadata datetime) : Prop :=
  vm.(python_version) = "source" ∧ is_valid_md5 vm.(md5) = true ∧
  is_valid_sha256 vm.(sha256) = true ∧ vm.(filename) ≠ "".

(** The body of the loop over the releases: the artifact stored for one
    release, from its JSON array. *)
Definition release_choice (artifacts : json) : result (VersionMetadata datetime) :=
  arts ← py_list artifacts;
  release_artifacts ← source_artifacts arts;
  select_artifact release_artifacts.

End views.

(** ** Instances of the external collaborators, to run the module on data *)

(** A lowercase hexadecimal digit. *)
Definition is_lower_hex_digit (c : ascii) : bool :=
  let n := N_of_ascii c in
  ((48 <=? n) && (n <=? 57) || (97 <=? n) && (n <=? 102))%N.

(** Modelled from the spec: [crypto_utils.is_valid_md5] and
    [crypto_utils.is_valid_sha256] ([anaconda_packaging_utils/cryptography/utils.py],
    not among the sources).  The spec's data model: an MD5 "must match 32
    lowercase hex digits", a SHA-256 "must match 64 lowercase hex digits". *)
Definition is_hex_hash (digits : nat) (s : string) : bool :=
  Nat.eqb (String.length s) digits
  && forallb is_lower_hex_digit (list_ascii_of_string s).

(** A calendar date and time of day, without offset. *)
Record naive_datetime : Type := {
  year : Z; month : Z; day : Z; hour : Z; minute : Z; second : Z
}.

Definition digit (c : ascii) : option Z :=
  let n := Z.of_N (N_of_ascii c) in
  if (48 <=? n) && (n <=? 57) then Some (n - 48) else None.

(** The number written by a list of decimal digits. *)
Definition number (cs : list ascii) : option Z :=
  foldl (λ acc c, a ← acc; d ← digit c; Some (10 * a + d)) (Some 0) cs.

Definition days_in_month (y m : Z) : Z :=
  if m =? 2 then
    if ((y mod 4 =? 0) && negb (y mod 100 =? 0)) || (y mod 400 =? 0) then 29 else 28
  else if (m =? 4) || (m =? 6) || (m =? 9) || (m =? 11) then 30
  else 31.

(** [datetime.fromisoformat] on the one layout [YYYY-MM-DDTHH:MM:SS]; every
    other string is refused here, also those Python accepts. *)
Definition fromisoformat_seconds (s : string) : option naive_datetime :=
  match list_ascii_of_string s with
  | [y1; y2; y3; y4; s1; m1; m2; s2; d1; d2; s3; h1; h2; s4; n1; n2; s5; c1; c2] =>
      if Ascii.eqb s1 "-"%char && Ascii.eqb s2 "-"%char && Ascii.eqb s3 "T"%char
         && Ascii.eqb s4 ":"%char && Ascii.eqb s5 ":"%char
      then
        y ← number [y1; y2; y3; y4];
        m ← number [m1; m2];
        d ← number [d1; d2];
        h ← number [h1; h2];
        n ← number [n1; n2];
        c ← number [c1; c2];
        if (1 <=? y) && (1 <=? m) && (m <=? 12) && (1 <=? d) && (d <=? days_in_month y m)
           && (h <=? 23) && (n <=? 59) && (c <=? 59)
        then Some {| year := y; month := m; day := d; hour := h; minute := n; second := c |}
        else None
      else None
  | _ => None
  end.

(** A response with status 200 and content type [application/json]. *)
Definition json_response (body : json) : Response :=
  {| status_code := 200;
     headers := λ h, if String.eqb h "content-type" then Some "application/json" else None;
     json_body := Some body |}.

(** The collaborators above, with a network that answers every request
    with [body]. *)
Definition serving (body : json) : Externals :=
  {| datetime := naive_datetime;
     fromisoformat := fromisoformat_seconds;
     is_valid_md5 := is_hex_hash 32;
     is_valid_sha256 := is_hex_hash 64;
     requests_get := λ _ _, Some (json_response body) |}.

(** *** Sample data *)

Definition sample_md5 : string := "0123456789abcdef0123456789abcdef".
Definition sample_sha256 : string :=
  "0123456789abcdef0123456789abcdef0123456789abcdef0123456789abcdef".
Definition sample_time : string := "2023-05-01T12:00:00".

(** An artifact object with the given file name, tag, MD5 and timestamp. *)
Definition artifact_json (file tag digest time : string) : json :=
  JObj [ ("digests", JObj [ ("md5", JStr digest); ("sha256", JStr sample_sha256) ]);
         ("filename", JStr file);
         ("python_version", JStr tag);
         ("size", JInt 1024);
         ("upload_time_iso_8601", JStr time);
         ("url", JStr ("https://files.pythonhosted.org/" +:+ file)) ].

Definition source_json (file : string) : json :=
  artifact_json file "source" sample_md5 sample_time.

Definition wheel_json (file : string) : json :=
  artifact_json file "py3" sample_md5 sample_time.

(** The ["info"] object of a response for version [v], with the given
    project links. *)
Definition info_json (v : string) (project_urls : list (string * json)) : json :=
  JObj [ ("description", JStr "A package.");
         ("description_content_type", JNull);
         ("docs_url", JNull);
         ("license", JStr "MIT");
         ("name", JStr "pkg");
         ("package_url", JStr "https://pypi.org/project/pkg/");
         ("project_url", JStr "https://pypi.org/project/pkg/");
         ("project_urls", JObj project_urls);
         ("release_url", JStr "https://pypi.org/project/pkg/1.0/");
         ("requires_python", JStr ">=3.8");
         ("summary", JStr "A package.");
         ("version", JStr v) ].

(** A full response: latest version [v] with the project links [links] and
    the artifacts [urls], and the release history [rel]. *)
Definition response_json (v : string) (links : list (string * json))
    (urls : list json) (rel : list (string * json)) : json :=
  JObj [ ("info", info_json v links);
         ("releases", JObj rel);
         ("urls", JArr urls) ].

Definition homepage_link : list (string * json) :=
  [ ("Homepage", JStr "https://example.org") ].

(** Release 1.0 with a zip and a tarball of the sources, the zip first. *)
Definition zip_tar_response : json :=
  response_json "1.0" homepage_link [ source_json "pkg-1.0.tar.gz" ]
    [ ("1.0", JArr [ source_json "pkg-1.0.zip"; source_json "pkg-1.0.tar.gz" ]) ].

(** The same with the tarball first. *)
Definition tar_zip_response : json :=
  response_json "1.0" homepage_link [ source_json "pkg-1.0.tar.gz" ]
    [ ("1.0", JArr [ source_json "pkg-1.0.tar.gz"; source_json "pkg-1.0.zip" ]) ].

(** Two releases; 0.9 has a wheel before its sources. *)
Definition two_releases_response : json :=
  response_json "1.0" homepage_link [ wheel_json "pkg-1.0-py3-none-any.whl"; source_json "pkg-1.0.tar.gz" ]
    [ ("0.9", JArr [ wheel_json "pkg-0.9-py3-none-any.whl"; source_json "pkg-0.9.tar.gz" ]);
      ("1.0", JArr [ source_json "pkg-1.0.tar.gz" ]) ].

(** Release 0.8 has a wheel only. *)
Definition wheel_only_response : json :=
  response_json "1.0" homepage_link [ source_json "pkg-1.0.tar.gz" ]
    [ ("0.9", JArr [ source_json "pkg-0.9.tar.gz" ]);
      ("0.8", JArr [ wheel_json "pkg-0.8-py3-none-any.whl" ]) ].

(** Release 0.9 has sources with a malformed MD5, release 0.8 a wheel
    only. *)
Definition bad_hash_response : json :=
  response_json "1.0" homepage_link [ source_json "pkg-1.0.tar.gz" ]
    [ ("0.9", JArr [ artifact_json "pkg-0.9.tar.gz" "source" "not-a-hash" sample_time ]);
      ("0.8", JArr [ wheel_json "pkg-0.8-py3-none-any.whl" ]) ].

(** No project links at all. *)
Definition no_links_response : json :=
  response_json "1.0" [] [ source_json "pkg-1.0.tar.gz" ] [].

(** The collaborators without a network to speak of. *)
Definition offline : Externals := serving JNull.

Definition sample_datetime : naive_datetime :=
  {| year := 2023; month := 5; day := 1; hour := 12; minute := 0; second := 0 |}.

(** The record the sample source artifact [source_json file] parses to. *)
Definition sample_metadata (file : string) : VersionMetadata naive_datetime :=
  {| md5 := sample_md5; sha256 := sample_sha256; filename := file;
     python_version := "source"; size := 1024; upload_time := sample_datetime;
     url := "https://files.pythonhosted.org/" +:+ file |}.

(** The record the sample ["info"] object parses to. *)
Definition sample_info (links : list (string * json)) : PackageInfo naive_datetime :=
  {| description := "A package."; description_content_type := ""; docs_url := "";
     license := "MIT"; name := "pkg";
     package_url := "https://pypi.org/project/pkg/";
     project_url := "https://pypi.org/project/pkg/";
     homepage_url := link links "Homepage"; source_url := link links "Source";
     release_url := "https://pypi.org/project/pkg/1.0/";
     requires_python := ">=3.8"; summary := "A package."; version := "1.0";
     source_metadata := sample_metadata "pkg-1.0.tar.gz" |}.

(** What a single-version fetch of the sample responses returns. *)
Definition latest_only : PackageMetadata naive_datetime :=
  {| info := sample_info homepage_link;
     releases := {[ "1.0" := sample_metadata "pkg-1.0.tar.gz" ]} |}.

(** What the full fetch of [two_releases_response] returns. *)
Definition two_releases : PackageMetadata naive_datetime :=
  {| info := sample_info homepage_link;
     releases := <[ "0.9" := sample_metadata "pkg-0.9.tar.gz" ]>
                   {[ "1.0" := sample_metadata "pkg-1.0.tar.gz" ]} |}.

(** *** More sample data *)

(** The fields of the sample ["info"] object, with the given license. *)
Definition sample_fields (licence : string) : info_fields :=
  {| i_description := Some "A package."; i_description_content_type := None;
     i_docs_url := None; i_license := licence; i_name := "pkg";
     i_package_url := "https://pypi.org/project/pkg/";
     i_project_url := "https://pypi.org/project/pkg/";
     i_project_urls := homepage_link;
     i_release_url := "https://pypi.org/project/pkg/1.0/";
     i_requires_python := ">=3.8"; i_summary := Some "A package.";
     i_version := "1.0" |}.

(** A response whose ["info"] has an empty ["license"]. *)
Definition unlicensed_response : json :=
  JObj [ ("info",
          JObj [ ("description", JStr "A package.");
                 ("description_content_type", JNull);
                 ("docs_url", JNull);
                 ("license", JStr "");
                 ("name", JStr "pkg");
                 ("package_url", JStr "https://pypi.org/project/pkg/");
                 ("project_url", JStr "https://pypi.org/project/pkg/");
                 ("project_urls", JObj homepage_link);
                 ("release_url", JStr "https://pypi.org/project/pkg/1.0/");
                 ("requires_python", JStr ">=3.8");
                 ("summary", JStr "A package.");
                 ("version", JStr "1.0") ]);
         ("urls", JArr [ source_json "pkg-1.0.tar.gz" ]) ].

(** The sample source artifact with its size written [1024.0], the float
    [1 * 2^10]. *)
Definition float_size_json : json :=
  JObj [ ("digests", JObj [ ("md5", JStr sample_md5); ("sha256", JStr sample_sha256) ]);
         ("filename", JStr "pkg-1.0.tar.gz");
         ("python_version", JStr "source");
         ("size", JFloat (Finite 1 10));
         ("upload_time_iso_8601", JStr sample_time);
         ("url", JStr "https://files.pythonhosted.org/pkg-1.0.tar.gz") ].

(** A wheel whose MD5 and timestamp are malformed. *)
Definition broken_wheel_json : json :=
  artifact_json "pkg-1.0-py3-none-any.whl" "py3" "not-a-hash" "yesterday".

(** A world in which the configuration holds both credentials and JIRA
    accepts them, with clients named by strings. *)
Definition open_world : JiraWorld string unit :=
  {| ConfigData_new := Some tt;
     ConfigData_getitem := λ _ key, Some key;
     JIRA_new := λ _ _, Some "client" |}.

(** ** Lemmas *)

Ltac in_list := repeat first [ apply list_elem_of_here | apply list_elem_of_further ].

(** *** Schema validation *)

Lemma validate_unfold s j :
  validate s j =
    type_ok (sch_type s) j
    && (negb (is_object j) || forallb (fun k => dict_has k (obj_items j)) (sch_required s))
    && forallb (property_ok j) (sch_properties s)
    && forallb (pattern_ok j) (sch_patternProperties s)
    && (sch_additionalProperties s
        || forallb (fun kv : string * json =>
                      existsb (fun p : string * schema => String.eqb kv.1 p.1) (sch_properties s)
                      || existsb (fun p : regex * schema => re_search p.1 kv.1)
                           (sch_patternProperties s))
                   (obj_items j))
    && match sch_items s with
       | Some sub => forallb (validate sub) (arr_elems j)
       | None => true
       end.
Proof.
  destruct s as [tys req props pats addl items]; cbn [validate sch_type sch_required
    sch_properties sch_patternProperties sch_additionalProperties sch_items].
  unfold type_ok. do 2 f_equal. f_equal.
  - f_equal. induction props as [|[k sub] props IH]; [done|].
    cbn [forallb]. rewrite <- IH. done.
  - induction pats as [|[r sub] pats IH]; [done|].
    cbn [forallb]. rewrite <- IH. done.
Qed.

Lemma validate_type s j :
  validate s j = true → type_ok (sch_type s) j = true.
Proof. rewrite validate_unfold, !andb_true_iff. tauto. Qed.

Lemma validate_required s items k :
  validate s (JObj items) = true → k ∈ sch_required s →
  ∃ v, dict_get k items = Some v.
Proof.
  rewrite validate_unfold, !andb_true_iff. intros (((((_ & Hreq) & _) & _) & _) & _) Hk.
  cbn in Hreq. rewrite forallb_forall in Hreq.
  apply list_elem_of_In, Hreq in Hk. unfold dict_has in Hk.
  destruct (dict_get k items); [eauto | done].
Qed.

Lemma validate_property s j k sub v :
  validate s j = true → (k, sub) ∈ sch_properties s →
  dict_get k (obj_items j) = Some v → validate sub v = true.
Proof.
  rewrite validate_unfold, !andb_true_iff. intros (((((_ & _) & Hp) & _) & _) & _) Hk Hv.
  rewrite forallb_forall in Hp. apply list_elem_of_In, Hp in Hk.
  unfold property_ok in Hk. cbn in Hk. by rewrite Hv in Hk.
Qed.

Lemma validate_items s sub xs :
  validate s (JArr xs) = true → sch_items s = Some sub →
  Forall (λ x, validate sub x = true) xs.
Proof.
  rewrite validate_unfold, !andb_true_iff. intros (_ & Hi) Hs. rewrite Hs in Hi.
  cbn in Hi. rewrite forallb_forall in Hi. apply Forall_forall.
  intros x Hx. by apply Hi, list_elem_of_In.
Qed.

Lemma validate_pattern_all s sub items :
  validate s (JObj items) = true →
  sch_properties s = [] → sch_patternProperties s = [(re_any_line, sub)] →
  sch_additionalProperties s = false →
  Forall (λ kv : string * json, one_line kv.1 = true ∧ validate sub kv.2 = true) items.
Proof.
  rewrite validate_unfold, !andb_true_iff.
  intros ((((_ & _) & Hp) & Ha) & _) Hprops Hpats Haddl.
  rewrite Hprops, Hpats, Haddl in *. cbn in Hp, Ha.
  rewrite andb_true_r in Hp. rewrite forallb_forall in Hp, Ha.
  apply Forall_forall. intros kv Hkv. apply list_elem_of_In in Hkv.
  specialize (Hp _ Hkv). specialize (Ha _ Hkv). cbn in Ha.
  rewrite orb_false_r in Ha. rewrite Ha in Hp. done.
Qed.

Lemma typed_string_inv v : validate (typed [t_string]) v = true → ∃ s, v = JStr s.
Proof. destruct v; try discriminate; eauto. Qed.

Lemma float_int_integer x : float_is_integer x = true → ∃ z, float_int x = Some z.
Proof. destruct x; [eauto | done..]. Qed.

Lemma typed_integer_inv v : validate (typed [t_integer]) v = true → ∃ z, py_int v = Ok z.
Proof.
  destruct v as [| | |x| | |]; try discriminate; [by eexists|]. cbn.
  rewrite orb_false_r, !andb_true_r. intros [z Hz]%float_int_integer.
  rewrite Hz. eauto.
Qed.

Lemma typed_nullable_inv v :
  validate (typed [t_string; t_null]) v = true → v = JNull ∨ ∃ s, v = JStr s.
Proof. destruct v; try discriminate; eauto. Qed.

Lemma object_inv s v :
  validate s v = true → sch_type s = [t_object] → ∃ items, v = JObj items.
Proof.
  intros H Ht. apply validate_type in H. rewrite Ht in H.
  destruct v; try discriminate; eauto.
Qed.

Lemma array_inv s v :
  validate s v = true → sch_type s = [t_array] → ∃ xs, v = JArr xs.
Proof.
  intros H Ht. apply validate_type in H. rewrite Ht in H.
  destruct v; try discriminate; eauto.
Qed.

Lemma required_property s items k sub :
  validate s (JObj items) = true → k ∈ sch_required s → (k, sub) ∈ sch_properties s →
  ∃ v, dict_get k items = Some v ∧ validate sub v = true.
Proof.
  intros H Hr Hp. destruct (validate_required _ _ _ H Hr) as [v Hv].
  exists v. split; [done|]. by eapply validate_property.
Qed.

Lemma required_string s items k :
  validate s (JObj items) = true → k ∈ sch_required s →
  (k, typed [t_string]) ∈ sch_properties s →
  ∃ x, dict_get k items = Some (JStr x).
Proof.
  intros H Hr Hp. destruct (required_property _ _ _ _ H Hr Hp) as (v & Hv & Hs).
  apply typed_string_inv in Hs as [x ->]. eauto.
Qed.

Lemma nullable_inv v :
  v = JNull ∨ (∃ x, v = JStr x) → ∃ o, v = nullable o.
Proof. intros [-> | [x ->]]; [by exists None | by exists (Some x)]. Qed.

Lemma required_nullable' s items k :
  validate s (JObj items) = true → k ∈ sch_required s →
  (k, typed [t_string; t_null]) ∈ sch_properties s →
  ∃ o, dict_get k items = Some (nullable o).
Proof.
  intros H Hr Hp. destruct (required_property _ _ _ _ H Hr Hp) as (v & Hv & Hs).
  apply typed_nullable_inv, nullable_inv in Hs as [o ->]. eauto.
Qed.

Lemma optional_string s items k :
  validate s (JObj items) = true → (k, typed [t_string]) ∈ sch_properties s →
  link_typed items k.
Proof.
  intros H Hp v Hv. apply typed_string_inv. by eapply (validate_property _ (JObj items)).
Qed.

Lemma artifact_schema_inv data :
  validate VersionMetadata_get_schema data = true →
  ∃ m s f p z t u, artifact_values data m s f p z t u.
Proof.
  intros H. destruct (object_inv _ _ H eq_refl) as [items ->].
  destruct (required_property _ _ "digests" _ H ltac:(cbn; in_list) ltac:(cbn; in_list))
    as (d & Hd & Hdv).
  destruct (object_inv _ _ Hdv eq_refl) as [ditems ->].
  destruct (required_string _ _ "md5" Hdv ltac:(cbn; in_list) ltac:(cbn; in_list)) as [m Hm].
  destruct (required_string _ _ "sha256" Hdv ltac:(cbn; in_list) ltac:(cbn; in_list)) as [s Hs].
  destruct (required_string _ _ "filename" H ltac:(cbn; in_list) ltac:(cbn; in_list)) as [f Hf].
  destruct (required_string _ _ "python_version" H ltac:(cbn; in_list) ltac:(cbn; in_list)) as [p Hp].
  destruct (required_string _ _ "upload_time_iso_8601" H ltac:(cbn; in_list) ltac:(cbn; in_list)) as [t Ht].
  destruct (required_string _ _ "url" H ltac:(cbn; in_list) ltac:(cbn; in_list)) as [u Hu].
  destruct (required_property _ _ "size" _ H ltac:(cbn; in_list) ltac:(cbn; in_list))
    as (zv & Hz & Hzv).
  apply typed_integer_inv in Hzv as [z Hint].
  exists m, s, f, p, z, t, u. unfold artifact_values, getitem2, getitem.
  cbn. rewrite Hd. cbn. rewrite Hm, Hs, Hf, Hp, Hz, Ht, Hu. done.
Qed.

Lemma response_schema_inv b data :
  validate (PackageInfo_get_schema b) data = true →
  ∃ urls i,
    getitem data "urls" = Ok (JArr urls) ∧ Forall valid_artifact urls ∧
    has_info data i ∧
    link_typed i.(i_project_urls) "Homepage" ∧ link_typed i.(i_project_urls) "Source" ∧
    (∀ r, getitem data "releases" = Ok r → ∃ rel, r = JObj rel ∧ valid_releases rel) ∧
    (b = true → ∃ r, getitem data "releases" = Ok r).
Proof.
  intros H. destruct (object_inv _ _ H eq_refl) as [items ->].
  destruct (required_property _ _ "urls" _ H ltac:(cbn; in_list) ltac:(cbn; in_list))
    as (us & Hus & Husv).
  destruct (array_inv _ _ Husv eq_refl) as [urls ->].
  apply validate_items with (sub := VersionMetadata_get_schema) in Husv; [|done].
  destruct (required_property _ _ "info" _ H ltac:(cbn; in_list) ltac:(cbn; in_list))
    as (inf & Hinf & Hinfv).
  destruct (object_inv _ _ Hinfv eq_refl) as [iitems ->].
  destruct (required_nullable' _ _ "description" Hinfv ltac:(cbn; in_list) ltac:(cbn; in_list)) as [d Hd].
  destruct (required_nullable' _ _ "description_content_type" Hinfv ltac:(cbn; in_list) ltac:(cbn; in_list)) as [ct Hct].
  destruct (required_nullable' _ _ "docs_url" Hinfv ltac:(cbn; in_list) ltac:(cbn; in_list)) as [du Hdu].
  destruct (required_string _ _ "license" Hinfv ltac:(cbn; in_list) ltac:(cbn; in_list)) as [l Hl].
  destruct (required_string _ _ "name" Hinfv ltac:(cbn; in_list) ltac:(cbn; in_list)) as [n Hn].
  destruct (required_string _ _ "package_url" Hinfv ltac:(cbn; in_list) ltac:(cbn; in_list)) as [pk Hpk].
  destruct (required_string _ _ "project_url" Hinfv ltac:(cbn; in_list) ltac:(cbn; in_list)) as [pj Hpj].
  destruct (required_string _ _ "release_url" Hinfv ltac:(cbn; in_list) ltac:(cbn; in_list)) as [r Hr].
  destruct (required_string _ _ "requires_python" Hinfv ltac:(cbn; in_list) ltac:(cbn; in_list)) as [rp Hrp].
  destruct (required_nullable' _ _ "summary" Hinfv ltac:(cbn; in_list) ltac:(cbn; in_list)) as [su Hsu].
  destruct (required_string _ _ "version" Hinfv ltac:(cbn; in_list) ltac:(cbn; in_list)) as [v Hv].
  destruct (required_property _ _ "project_urls" _ Hinfv ltac:(cbn; in_list) ltac:(cbn; in_list))
    as (pus & Hpus & Hpusv).
  destruct (object_inv _ _ Hpusv eq_refl) as [pu ->].
  exists urls,
    {| i_description := d; i_description_content_type := ct; i_docs_url := du;
       i_license := l; i_name := n; i_package_url := pk; i_project_url := pj;
       i_project_urls := pu; i_release_url := r; i_requires_python := rp;
       i_summary := su; i_version := v |}.
  split_and!.
  - cbn. by rewrite Hus.
  - done.
  - unfold has_info, getitem2, getitem. cbn. rewrite Hinf. cbn.
    rewrite Hd, Hct, Hdu, Hl, Hn, Hpk, Hpj, Hpus, Hr, Hrp, Hsu, Hv. done.
  - cbn. eapply optional_string; [exact Hpusv | cbn; in_list].
  - cbn. eapply optional_string; [exact Hpusv | cbn; in_list].
  - intros rv Hrv. cbn in Hrv. destruct (dict_get "releases" items) as [rv'|] eqn:Hg; [|done].
    injection Hrv as ->.
    assert (Hrvv := validate_property _ (JObj items) "releases" _ _ H
                      ltac:(cbn; in_list) Hg).
    destruct (object_inv _ _ Hrvv eq_refl) as [rel ->]. exists rel. split; [done|].
    eapply validate_pattern_all in Hrvv; [|done..].
    eapply Forall_impl; [exact Hrvv|]. intros [k a] [_ Ha]. cbn [snd] in Ha |- *.
    destruct (array_inv _ _ Ha eq_refl) as [arts ->]. exists arts. split; [done|].
    by eapply validate_items.
  - intros ->. destruct (validate_required _ _ "releases" H ltac:(cbn; in_list)) as [rv Hrv].
    exists rv. cbn. by rewrite Hrv.
Qed.

(** *** Python primitives *)

Lemma py_str_or_empty_nullable o : py_str_or_empty (nullable o) = Ok (default "" o).
Proof. by destruct o. Qed.

Lemma length_zero_empty (s : string) :
  (Z.of_nat (String.length s) =? 0) = true ↔ s = "".
Proof.
  destruct s; cbn; [done|]. split; [|done]. intros H. apply Z.eqb_eq in H. lia.
Qed.

Lemma check_field field (s : string) :
  _check_for_empty_field field (Some s) =
    if decide (s = "") then ApiException ("`" +:+ field +:+ "` field is empty: ")
    else Ok tt.
Proof.
  unfold _check_for_empty_field.
  destruct (Z.of_nat (String.length s) =? 0) eqn:Hz.
  - apply length_zero_empty in Hz as ->. done.
  - case_decide as Hs; [|done]. apply length_zero_empty in Hs. congruence.
Qed.

Lemma check_info_ok (i : info_fields) :
  check_info i = Ok tt ↔
  i.(i_license) ≠ "" ∧ i.(i_name) ≠ "" ∧ i.(i_package_url) ≠ "" ∧
  i.(i_project_url) ≠ "" ∧ i.(i_release_url) ≠ "" ∧ i.(i_version) ≠ "".
Proof.
  unfold check_info. rewrite !check_field.
  repeat case_decide; cbn [mbind result_bind]; intuition congruence.
Qed.

Lemma check_info_no_crash (i : info_fields) : no_crash (check_info i).
Proof.
  unfold check_info. rewrite !check_field.
  repeat case_decide; cbn [mbind result_bind]; done.
Qed.


Lemma find_from_range s sub i :
  find_from i s sub = -1 ∨ i ≤ find_from i s sub.
Proof.
  revert i. induction s as [|c s IH]; intros i; cbn [find_from].
  - destruct (String.prefix sub ""); [right; lia | by left].
  - destruct (String.prefix sub (String c s)); [right; lia|].
    destruct (IH (i + 1)) as [-> | H]; [by left | right; lia].
Qed.

(** The loop's condition [filename.find(".tar")] is false exactly when the
    file name starts with [sub]. *)
Lemma truthy_find s sub : truthy (str_find s sub) = negb (String.prefix sub s).
Proof.
  unfold truthy, str_find. destruct s as [|c s]; cbn [find_from].
  - by destruct (String.prefix sub "").
  - destruct (String.prefix sub (String c s)); [done|]. cbn [negb].
    apply negb_true_iff, Z.eqb_neq. destruct (find_from_range s sub (0 + 1)) as [-> | H]; lia.
Qed.

Lemma dict_get_set_eq k v items : dict_get k (dict_set k v items) = Some v.
Proof.
  induction items as [|[k' v'] items IH]; cbn.
  - by rewrite String.eqb_refl.
  - destruct (String.eqb k k') eqn:Hk; cbn; by rewrite ?String.eqb_refl, ?Hk.
Qed.

Lemma dict_get_set_ne k k' v items :
  k ≠ k' → dict_get k (dict_set k' v items) = dict_get k items.
Proof.
  intros Hne. induction items as [|[k'' v''] items IH]; cbn.
  - by apply String.eqb_neq in Hne as ->.
  - destruct (String.eqb k' k'') eqn:Hk; cbn.
    + apply String.eqb_eq in Hk as <-. by apply String.eqb_neq in Hne as ->.
    + by rewrite IH.
Qed.

Lemma getitem_set_ne k k' v items :
  k ≠ k' → getitem (JObj (dict_set k' v items)) k = getitem (JObj items) k.
Proof. intros Hne. unfold getitem. by rewrite dict_get_set_ne. Qed.

Lemma getitem2_set_ne k1 k2 k' v items :
  k1 ≠ k' → getitem2 (JObj (dict_set k' v items)) k1 k2 = getitem2 (JObj items) k1 k2.
Proof. intros Hne. unfold getitem2. by rewrite getitem_set_ne. Qed.

Lemma getitem2_project_urls_eq data i pu :
  has_info data i →
  getitem2 (with_project_urls data pu) "info" "project_urls" = Ok (JObj pu).
Proof.
  intros (Hd & _). unfold with_project_urls, getitem2, getitem in *.
  destruct data as [| | | | | |items]; try done.
  destruct (dict_get "info" items) as [[| | | | | |fields]|] eqn:Hi; try done.
  rewrite dict_get_set_eq. cbn. by rewrite dict_get_set_eq.
Qed.

Lemma getitem2_project_urls_ne data i pu k :
  has_info data i → k ≠ "project_urls" →
  getitem2 (with_project_urls data pu) "info" k = getitem2 data "info" k.
Proof.
  intros (Hd & _) Hk. unfold with_project_urls, getitem2, getitem in *.
  destruct data as [| | | | | |items]; try done.
  destruct (dict_get "info" items) as [[| | | | | |fields]|] eqn:Hi; try done.
  rewrite dict_get_set_eq. cbn. by rewrite dict_get_set_ne.
Qed.

Lemma getitem_project_urls_urls data i pu :
  has_info data i →
  getitem (with_project_urls data pu) "urls" = getitem data "urls".
Proof.
  intros (Hd & _). unfold with_project_urls, getitem2, getitem in *.
  destruct data as [| | | | | |items]; try done.
  destruct (dict_get "info" items) as [[| | | | | |fields]|] eqn:Hi; try done.
  by rewrite dict_get_set_ne.
Qed.

Lemma has_info_relinked data i pu :
  has_info data i → has_info (with_project_urls data pu) (relinked i pu).
Proof.
  intros Hi. pose proof Hi as (Hd & Hct & Hdu & Hl & Hn & Hpk & Hpj & Hpu & Hr & Hrp & Hs & Hv).
  unfold has_info. rewrite (getitem2_project_urls_eq _ _ _ Hi).
  rewrite !(getitem2_project_urls_ne _ _ _ _ Hi) by done.
  cbn. done.
Qed.

Lemma nullable_inj o o' : nullable o = nullable o' → o = o'.
Proof. destruct o, o'; cbn; congruence. Qed.

Lemma has_info_unique data i i' : has_info data i → has_info data i' → i = i'.
Proof.
  destruct i, i'. unfold has_info. cbn.
  intros (H1 & H2 & H3 & H4 & H5 & H6 & H7 & H8 & H9 & H10 & H11 & H12).
  rewrite H1, H2, H3, H4, H5, H6, H7, H8, H9, H10, H11, H12.
  intros (G1 & G2 & G3 & G4 & G5 & G6 & G7 & G8 & G9 & G10 & G11 & G12).
  injection G1 as G1%nullable_inj. injection G2 as G2%nullable_inj.
  injection G3 as G3%nullable_inj. injection G11 as G11%nullable_inj.
  congruence.
Qed.

Lemma is_hex_hash_hex_digits n s : is_hex_hash n s = true → hex_digits n s = true.
Proof.
  unfold is_hex_hash, hex_digits. rewrite !andb_true_iff. intros [Hlen Hall].
  split; [done|]. rewrite forallb_forall in Hall. apply forallb_forall.
  intros c Hc. specialize (Hall c Hc). unfold is_lower_hex_digit in Hall.
  unfold is_hex_digit. by rewrite Hall.
Qed.

Section properties.
Context `{E : Externals}.

(** *** Artifacts *)

Lemma parse_version_metadata_eq data m s f p z t u :
  artifact_values data m s f p z t u →
  _parse_version_metadata data =
    match fromisoformat t with
    | None => raise ("Failed to convert timestamp: " +:+ t)
    | Some time =>
        if negb (is_valid_md5 m)
        then raise ("VersionMetadata MD5 hash is invalid: " +:+ m)
        else if negb (is_valid_sha256 s)
        then raise ("VersionMetadata SHA-256 hash is invalid: " +:+ m)
        else if Z.eqb (Z.of_nat (String.length f)) 0
        then raise ("`VersionMetadata.filename` field is empty: " +:+ f)
        else if Z.eqb (Z.of_nat (String.length p)) 0
        then raise ("`VersionMetadata.python_version` field is empty: " +:+ p)
        else Ok {| md5 := m; sha256 := s; filename := f; python_version := p;
                   size := z; upload_time := time; url := u |}
    end.
Proof.
  intros (Hm & Hs & Hf & Hp & Hz & Ht & Hu).
  unfold _parse_version_metadata. rewrite Hm, Hs, Hf, Hp, Hz, Ht, Hu. cbn.
  destruct (fromisoformat t); cbn; [|done].
  destruct (is_valid_md5 m); cbn; [|done].
  destruct (is_valid_sha256 s); cbn; [|done].
  destruct (Z.of_nat (String.length f) =? 0)%Z; cbn; [done|].
  destruct (Z.of_nat (String.length p) =? 0)%Z; cbn; done.
Qed.

Lemma is_source_fields data m s f p z t u :
  artifact_values data m s f p z t u → is_source data = Ok (String.eqb p "source").
Proof. intros (_ & _ & _ & Hp & _). unfold is_source. by rewrite Hp. Qed.

Lemma is_source_valid u : valid_artifact u → ∃ b, is_source u = Ok b.
Proof.
  intros H. apply artifact_schema_inv in H as (m & s & f & p & z & t & x & H).
  erewrite is_source_fields by done. eauto.
Qed.

Lemma parse_version_metadata_no_crash u :
  valid_artifact u → no_crash (_parse_version_metadata u).
Proof.
  intros H. apply artifact_schema_inv in H as (m & s & f & p & z & t & x & H).
  rewrite (parse_version_metadata_eq _ _ _ _ _ _ _ _ H).
  destruct (fromisoformat t); [|done].
  destruct (negb _); [done|]. destruct (negb _); [done|].
  destruct (_ =? _); [done|]. destruct (_ =? _); done.
Qed.

Lemma parse_version_metadata_checked u vm :
  _parse_version_metadata u = Ok vm →
  is_valid_md5 vm.(md5) = true ∧ is_valid_sha256 vm.(sha256) = true ∧
  vm.(filename) ≠ "" ∧ vm.(python_version) ≠ "" ∧
  getitem u "python_version" = Ok (JStr vm.(python_version)).
Proof.
  unfold _parse_version_metadata.
  destruct (getitem u "upload_time_iso_8601" ≫= py_str) as [ts| |];
    cbn [mbind result_bind]; try done.
  destruct (fromisoformat ts) as [t|]; cbn [mbind result_bind]; [|done].
  destruct (getitem u "size" ≫= py_int) as [z| |]; cbn [mbind result_bind]; try done.
  destruct (getitem2 u "digests" "md5" ≫= py_str) as [m| |];
    cbn [mbind result_bind]; try done.
  destruct (getitem2 u "digests" "sha256" ≫= py_str) as [h| |];
    cbn [mbind result_bind]; try done.
  destruct (getitem u "filename" ≫= py_str) as [f| |]; cbn [mbind result_bind]; try done.
  destruct (getitem u "python_version" ≫= py_str) as [p| |] eqn:Hpv;
    cbn [mbind result_bind]; try done.
  destruct (getitem u "url" ≫= py_str_or_empty) as [l| |]; cbn [mbind result_bind]; try done.
  cbn [md5 sha256 filename python_version].
  destruct (is_valid_md5 m) eqn:Hm; cbn [negb]; [|done].
  destruct (is_valid_sha256 h) eqn:Hs; cbn [negb]; [|done].
  rewrite !check_field. repeat case_decide; cbn [mbind result_bind]; try done.
  intros [= <-]. cbn [md5 sha256 filename python_version]. split_and!; try done.
  destruct (getitem u "python_version") as [[]| |]; cbn in Hpv; try done. congruence.
Qed.

Lemma parse_source_invariant u vm :
  is_source u = Ok true → _parse_version_metadata u = Ok vm → source_invariant vm.
Proof.
  intros Hsrc Hp. apply parse_version_metadata_checked in Hp as (Hm & Hs & Hf & _ & Hpv).
  unfold is_source in Hsrc. rewrite Hpv in Hsrc. cbn in Hsrc.
  injection Hsrc as Hsrc. apply String.eqb_eq in Hsrc. done.
Qed.

(** *** The scan of [urls] and the package info *)

Lemma source_of_urls_none urls :
  Forall (λ u, is_source u = Ok false) urls → source_of_urls urls = Ok None.
Proof.
  induction 1 as [|u urls Hu _ IH]; [done|]. cbn. rewrite Hu. cbn. done.
Qed.

Lemma source_of_urls_first pre u post :
  Forall (λ x, is_source x = Ok false) pre → is_source u = Ok true →
  source_of_urls (pre ++ u :: post) = Some <$> _parse_version_metadata u.
Proof.
  intros Hpre Hu. induction Hpre as [|x pre Hx _ IH]; cbn.
  - by rewrite Hu.
  - by rewrite Hx.
Qed.

(** A schema-valid array either has no source entry or splits at its
    first one. *)
Lemma first_source_split urls :
  Forall valid_artifact urls →
  Forall (λ u, is_source u = Ok false) urls ∨
  ∃ pre u post, urls = pre ++ u :: post ∧
    Forall (λ x, is_source x = Ok false) pre ∧ is_source u = Ok true.
Proof.
  induction 1 as [|u urls Hu _ IH]; [by left|].
  destruct (is_source_valid _ Hu) as [[] Hb].
  - right. exists [], u, urls. done.
  - destruct IH as [IH | (pre & x & post & -> & Hpre & Hx)].
    + left. by constructor.
    + right. exists (u :: pre), x, post. split_and!; [done| by constructor | done].
Qed.

Lemma source_of_urls_no_crash urls :
  Forall valid_artifact urls → no_crash (source_of_urls urls).
Proof.
  induction 1 as [|u urls Hu _ IH]; [done|]. cbn.
  destruct (is_source_valid _ Hu) as [[] ->]; cbn; [|done].
  pose proof (parse_version_metadata_no_crash _ Hu).
  by destruct (_parse_version_metadata u).
Qed.

Lemma source_of_urls_invariant urls vm :
  source_of_urls urls = Ok (Some vm) → source_invariant vm.
Proof.
  induction urls as [|u urls IH]; [done|]. cbn.
  destruct (is_source u) as [[]| |] eqn:Hu; cbn; try done.
  destruct (_parse_version_metadata u) eqn:Hp; cbn; try done.
  intros [= <-]. by eapply parse_source_invariant.
Qed.

Lemma link_lookup pu k :
  link_typed pu k →
  (if dict_has k pu then getitem (JObj pu) k ≫= py_str else Ok "") = Ok (link pu k).
Proof.
  intros Ht. unfold dict_has, link, getitem. destruct (dict_get k pu) as [v|] eqn:Hv; [|done].
  destruct (Ht v Hv) as [s ->]. done.
Qed.

Lemma parse_package_info_eq data urls i :
  getitem data "urls" = Ok (JArr urls) → has_info data i →
  link_typed i.(i_project_urls) "Homepage" → link_typed i.(i_project_urls) "Source" →
  _parse_package_info data =
    found ← source_of_urls urls;
    match found with
    | None => raise "Source artifacts are not provided!"
    | Some vm => _ ← check_info i; Ok (package_info_of i vm)
    end.
Proof.
  intros Hu (Hd & Hct & Hdu & Hl & Hn & Hpk & Hpj & Hpu & Hr & Hrp & Hs & Hv) Hh Hsrc.
  unfold _parse_package_info. rewrite Hu. cbn [mbind result_bind py_list].
  destruct (source_of_urls urls) as [[vm|]| |]; cbn [mbind result_bind]; try done.
  rewrite Hpu. cbn [mbind result_bind py_dict].
  rewrite (link_lookup _ _ Hh), (link_lookup _ _ Hsrc). cbn [mbind result_bind].
  rewrite Hd, Hct, Hdu, Hl, Hn, Hpk, Hpj, Hr, Hrp, Hs, Hv.
  cbn [mbind result_bind py_str]. rewrite !py_str_or_empty_nullable.
  cbn [mbind result_bind]. unfold check_info, package_info_of.
  cbn [license name package_url project_url release_url version].
  repeat (match goal with
          | |- context [_check_for_empty_field ?f ?v] =>
              destruct (_check_for_empty_field f v) as [[]| |]; cbn [mbind result_bind]; try done
          end).
Qed.

Lemma parse_package_info_ignores_releases data rel :
  _parse_package_info (with_releases data rel) = _parse_package_info data.
Proof.
  destruct data as [| | | | | |items]; try done.
  unfold _parse_package_info, with_releases.
  rewrite getitem_set_ne by done. by rewrite !getitem2_set_ne by done.
Qed.

Lemma parse_package_info_invariant data info :
  _parse_package_info data = Ok info → source_invariant info.(source_metadata).
Proof.
  unfold _parse_package_info.
  destruct (getitem data "urls" ≫= py_list) as [urls| |]; cbn [mbind result_bind]; try done.
  destruct (source_of_urls urls) as [[vm|]| |] eqn:Hsrc; cbn [mbind result_bind]; try done.
  apply source_of_urls_invariant in Hsrc.
  repeat match goal with
         | |- context [mbind _ ?r] =>
             destruct r as [?| |]; cbn [mbind result_bind]; try done
         end.
  by intros [= <-].
Qed.

Lemma parse_package_info_urls data info :
  _parse_package_info data = Ok info →
  ∃ urls, getitem data "urls" = Ok (JArr urls) ∧
          source_of_urls urls = Ok (Some info.(source_metadata)).
Proof.
  unfold _parse_package_info.
  destruct (getitem data "urls") as [[| | | | |urls|]| |]; cbn [mbind result_bind py_list]; try done.
  destruct (source_of_urls urls) as [[vm|]| |] eqn:Hsrc; cbn [mbind result_bind]; try done.
  repeat match goal with
         | |- context [mbind _ ?r] =>
             destruct r as [?| |]; cbn [mbind result_bind]; try done
         end.
  intros [= <-]. eauto.
Qed.

(** *** The scan of one release *)

Lemma source_artifacts_none arts :
  Forall (λ a, is_source a = Ok false) arts → source_artifacts arts = Ok [].
Proof.
  induction 1 as [|a arts Ha _ IH]; [done|]. cbn. by rewrite Ha.
Qed.

Lemma source_artifacts_no_crash arts :
  Forall valid_artifact arts → no_crash (source_artifacts arts).
Proof.
  induction 1 as [|a arts Ha _ IH]; [done|]. cbn.
  destruct (is_source_valid _ Ha) as [[] ->]; cbn; [|done].
  pose proof (parse_version_metadata_no_crash _ Ha).
  destruct (_parse_version_metadata a); cbn; try done.
  by destruct (source_artifacts arts).
Qed.

Lemma source_artifacts_invariant arts l :
  source_artifacts arts = Ok l → Forall source_invariant l.
Proof.
  revert l. induction arts as [|a arts IH]; intros l; cbn.
  - by intros [= <-].
  - destruct (is_source a) as [[]| |] eqn:Ha; cbn; try done; [|by apply IH].
    destruct (_parse_version_metadata a) as [vm| |] eqn:Hp; cbn; try done.
    destruct (source_artifacts arts) as [rest| |]; cbn; try done.
    intros [= <-]. constructor; [by eapply parse_source_invariant | by apply IH].
Qed.

Lemma tar_artifact_elem l x : tar_artifact l = Some x → x ∈ l.
Proof.
  induction l as [|a l IH]; [done|]. cbn.
  destruct (truthy _); [intros [= ->]; left | intros H; right; auto].
Qed.

(** What the selection does: with two or more source artifacts it takes the
    first whose file name does not start with [".tar"], and the first of
    all when every name starts so. *)
Lemma tar_artifact_find l :
  tar_artifact l = List.find (λ x, negb (String.prefix ".tar" x.(filename))) l.
Proof.
  induction l as [|a l IH]; [done|]. cbn. rewrite truthy_find, IH. done.
Qed.

Lemma select_artifact_elem l x : select_artifact l = Ok x → x ∈ l.
Proof.
  destruct l as [|a [|b l]]; cbn [select_artifact]; [done| intros [= ->]; left |].
  destruct (tar_artifact (a :: b :: l)) eqn:Ht.
  - intros [= ->]. by apply tar_artifact_elem.
  - intros [= ->]. left.
Qed.

Lemma select_artifact_no_crash l : no_crash (select_artifact l).
Proof.
  destruct l as [|a [|b l]]; cbn [select_artifact]; [done..|].
  by destruct (tar_artifact _).
Qed.

Lemma select_artifact_spec a b l :
  select_artifact (a :: b :: l) =
    Ok (default a (List.find (λ x, negb (String.prefix ".tar" x.(filename))) (a :: b :: l))).
Proof.
  cbn [select_artifact]. rewrite tar_artifact_find.
  by destruct (List.find _ _).
Qed.

Lemma release_choice_no_crash arts :
  Forall valid_artifact arts → no_crash (release_choice (JArr arts)).
Proof.
  intros H. unfold release_choice. cbn.
  pose proof (source_artifacts_no_crash _ H).
  destruct (source_artifacts arts); cbn; try done. apply select_artifact_no_crash.
Qed.

Lemma release_choice_invariant a vm :
  release_choice a = Ok vm → source_invariant vm.
Proof.
  unfold release_choice. destruct (py_list a); cbn; try done.
  destruct (source_artifacts a0) eqn:Hs; cbn; try done.
  intros Hsel%select_artifact_elem. apply source_artifacts_invariant in Hs.
  rewrite Forall_forall in Hs. by apply Hs.
Qed.

Lemma release_choice_none arts :
  Forall (λ a, is_source a = Ok false) arts →
  release_choice (JArr arts) = raise "API did not return any source artifacts.".
Proof. intros H. unfold release_choice. cbn. by rewrite source_artifacts_none. Qed.

(** *** The scan of all releases *)

Lemma scan_releases_cons v artifacts rel m :
  scan_releases ((v, artifacts) :: rel) m =
    chosen ← release_choice artifacts; scan_releases rel (<[v := chosen]> m).
Proof.
  cbn. unfold release_choice. destruct (py_list artifacts); cbn; try done.
  destruct (source_artifacts a); cbn; done.
Qed.

Lemma scan_releases_app pre post m :
  scan_releases (pre ++ post) m = m' ← scan_releases pre m; scan_releases post m'.
Proof.
  revert m. induction pre as [|[v a] pre IH]; intros m; [done|].
  rewrite <- app_comm_cons, !scan_releases_cons.
  destruct (release_choice a); cbn; [apply IH | done..].
Qed.

Lemma scan_releases_no_crash rel m :
  valid_releases rel → no_crash (scan_releases rel m).
Proof.
  intros H. revert m. induction H as [|[v a] rel (arts & Heq & Ha) _ IH]; intros m; [done|].
  cbn in Heq. subst a.
  rewrite scan_releases_cons. pose proof (release_choice_no_crash _ Ha).
  destruct (release_choice (JArr arts)); cbn; [apply IH | done..].
Qed.

Lemma scan_releases_lookup rel seed m :
  dict_wf rel → scan_releases rel seed = Ok m →
  (∀ v a, (v, a) ∈ rel → ∃ chosen, release_choice a = Ok chosen ∧ m !! v = Some chosen) ∧
  (∀ v, v ∉ rel.*1 → m !! v = seed !! v).
Proof.
  unfold dict_wf. revert seed. induction rel as [|[v a] rel IH]; intros seed Hwf Hscan.
  - injection Hscan as <-. split; [|done]. intros ?? []%elem_of_nil.
  - rewrite scan_releases_cons in Hscan.
    destruct (release_choice a) as [chosen| |] eqn:Hc; cbn in Hscan; try done.
    cbn in Hwf. apply NoDup_cons in Hwf as [Hv Hwf].
    destruct (IH _ Hwf Hscan) as [IH1 IH2]. split.
    + intros v' a' [[= -> ->] | Hin]%elem_of_cons.
      * exists chosen. split; [done|]. rewrite IH2 by done. apply lookup_insert_eq.
      * by apply IH1.
    + intros v' Hv'. cbn in Hv'. apply not_elem_of_cons in Hv' as [Hne Hv'].
      rewrite IH2 by done. by apply lookup_insert_ne.
Qed.

Lemma scan_releases_invariant rel seed m :
  map_Forall (λ _, source_invariant) seed → scan_releases rel seed = Ok m →
  map_Forall (λ _, source_invariant) m.
Proof.
  revert seed. induction rel as [|[v a] rel IH]; intros seed Hseed Hscan.
  - by injection Hscan as <-.
  - rewrite scan_releases_cons in Hscan.
    destruct (release_choice a) as [chosen| |] eqn:Hc; cbn in Hscan; try done.
    eapply IH; [|done]. apply map_Forall_insert_2; [|done].
    by eapply release_choice_invariant.
Qed.

(** *** The request *)

Lemma make_request_valid endpoint sch data :
  _make_request_and_validate endpoint sch = Ok data → validate sch data = true.
Proof.
  unfold _make_request_and_validate.
  destruct (requests_get _ _) as [response|]; [|done].
  destruct (negb _); [done|]. destruct (headers _ _); [|done].
  destruct (negb _); [done|]. destruct (json_body _); [|done].
  destruct (validate sch j) eqn:Hv; [|done]. by intros [= <-].
Qed.

Lemma make_request_ok endpoint sch response data :
  requests_get endpoint HTTP_REQ_TIMEOUT = Some response →
  response.(status_code) = 200 →
  response.(headers) "content-type" = Some "application/json" →
  response.(json_body) = Some data →
  validate sch data = true →
  _make_request_and_validate endpoint sch = Ok data.
Proof.
  intros Hr Hs Hh Hj Hv. unfold _make_request_and_validate.
  rewrite Hr, Hs, Hh, Hj, Hv. done.
Qed.

(** ** The claims *)


(** C3: on a schema-valid response, [_parse_package_info] takes the first
    entry of [urls] tagged ["source"] and parses it as the source metadata:
    an error of that parse is the call's error, and its result is the
    [source_metadata] of the record, which is returned when the six
    required fields are not empty.  Without any entry tagged ["source"] the
    call raises [ApiException] with the message
    ["Source artifacts are not provided!"]. *)
Theorem parse_package_info_source b data urls :
  validate (PackageInfo_get_schema b) data = true →
  getitem data "urls" = Ok (JArr urls) →
  (Forall (λ u, is_source u = Ok false) urls →
     _parse_package_info data = ApiException "Source artifacts are not provided!") ∧
  (∀ pre u post,
     urls = pre ++ u :: post →
     Forall (λ x, is_source x = Ok false) pre → is_source u = Ok true →
     match _parse_version_metadata u with
     | Ok vm =>
         ∃ i, has_info data i ∧
              _parse_package_info data = (_ ← check_info i; Ok (package_info_of i vm)) ∧
              (package_info_of i vm).(source_metadata) = vm
     | ApiException message => _parse_package_info data = ApiException message
     | Crash _ => False
     end).
Proof.
  intros Hvalid Hurls.
  destruct (response_schema_inv _ _ Hvalid) as (urls' & i & Hurls' & Hall & Hi & Hh & Hs & _).
  rewrite Hurls in Hurls'. injection Hurls' as <-.
  rewrite (parse_package_info_eq _ _ _ Hurls Hi Hh Hs). split.
  - intros Hnone. by rewrite source_of_urls_none.
  - intros pre u post -> Hpre Hu. rewrite source_of_urls_first by done.
    assert (Hvu : valid_artifact u).
    { rewrite Forall_forall in Hall. apply Hall. set_solver. }
    pose proof (parse_version_metadata_no_crash _ Hvu) as Hnc.
    destruct (_parse_version_metadata u) as [vm| |]; cbn; [|done..].
    exists i. done.
Qed.

(** C4: on a schema-valid full-fetch response that is parsed, the returned
    [releases] is the seed [{info.version: info.source_metadata}] updated,
    for every key of the response's [releases], by the artifact the scan
    selects for it: every such key holds its selected artifact (also when
    the key is [info.version]), and any other key holds what the seed
    holds. *)
Theorem fetch_package_metadata_releases package data rel pm :
  _make_request_and_validate (_calc_package_metadata_url package)
    (PackageInfo_get_schema true) = Ok data →
  getitem data "releases" = Ok (JObj rel) → dict_wf rel →
  fetch_package_metadata package = Ok pm →
  _parse_package_info data = Ok pm.(info) ∧
  (∀ v a, (v, a) ∈ rel →
     ∃ chosen, release_choice a = Ok chosen ∧ pm.(releases) !! v = Some chosen) ∧
  (∀ v, v ∉ rel.*1 →
     pm.(releases) !! v =
       ({[ pm.(info).(version) := pm.(info).(source_metadata) ]}
          : gmap string (VersionMetadata datetime)) !! v).
Proof.
  intros Hreq Hrel Hwf. unfold fetch_package_metadata. rewrite Hreq. cbn [mbind result_bind].
  destruct (_parse_package_info data) as [parsed| |] eqn:Hinfo; cbn [mbind result_bind]; try done.
  rewrite Hrel. cbn [mbind result_bind py_dict].
  destruct (scan_releases rel _) as [scanned| |] eqn:Hscan; cbn [mbind result_bind]; try done.
  destruct (_ =? _); [done|]. intros [= <-]. cbn [info releases].
  split; [done|]. by apply scan_releases_lookup.
Qed.

(** C5, as amended: when some release of a schema-valid full-fetch
    response has no artifact tagged ["source"], [fetch_package_metadata]
    raises [ApiException] and returns nothing.  The error is
    ["API did not return any source artifacts."] when [info] is parsed and
    the releases before that one in the mapping's order are scanned
    without error; otherwise it is the error met first. *)
Theorem fetch_package_metadata_no_source package data pre v arts post :
  _make_request_and_validate (_calc_package_metadata_url package)
    (PackageInfo_get_schema true) = Ok data →
  getitem data "releases" = Ok (JObj (pre ++ (v, JArr arts) :: post)) →
  Forall (λ a, is_source a = Ok false) arts →
  (∃ message, fetch_package_metadata package = ApiException message) ∧
  (∀ parsed seen,
     _parse_package_info data = Ok parsed →
     scan_releases pre {[ parsed.(version) := parsed.(source_metadata) ]} = Ok seen →
     fetch_package_metadata package =
       ApiException "API did not return any source artifacts.").
Proof.
  intros Hreq Hrel Hnone. unfold fetch_package_metadata. rewrite Hreq. cbn [mbind result_bind].
  rewrite Hrel. cbn [mbind result_bind py_dict].
  assert (Hstop : ∀ seed seen, scan_releases pre seed = Ok seen →
            scan_releases (pre ++ (v, JArr arts) :: post) seed =
              ApiException "API did not return any source artifacts.").
  { intros seed seen Hpre. rewrite scan_releases_app, Hpre. cbn [mbind result_bind].
    by rewrite scan_releases_cons, release_choice_none. }
  apply make_request_valid in Hreq.
  destruct (response_schema_inv _ _ Hreq) as (urls & i & Hurls & Hall & Hi & Hh & Hs & Hrels & _).
  destruct (Hrels _ Hrel) as (rel' & [= <-] & Hvalid).
  split.
  - assert (Hnc : no_crash (_parse_package_info data)).
    { rewrite (parse_package_info_eq _ _ _ Hurls Hi Hh Hs).
      pose proof (source_of_urls_no_crash _ Hall).
      destruct (source_of_urls urls) as [[vm|]| |]; cbn [mbind result_bind]; try done.
      unfold check_info.
      repeat match goal with
             | |- context [_check_for_empty_field ?f ?x] =>
                 unfold _check_for_empty_field at 1;
                 destruct (Z.of_nat (String.length _) =? 0); cbn [mbind result_bind]; try done
             end. }
    destruct (_parse_package_info data) as [parsed| |]; cbn [mbind result_bind]; [|by eexists|done].
    apply Forall_app in Hvalid as [Hpre _].
    pose proof (scan_releases_no_crash pre
                  {[ parsed.(version) := parsed.(source_metadata) ]} Hpre) as Hncp.
    destruct (scan_releases pre _) as [seen| |] eqn:Hscan; [| |done].
    + erewrite Hstop by done. by eexists.
    + rewrite scan_releases_app, Hscan. by eexists.
  - intros parsed seen -> Hpre. cbn [mbind result_bind]. by erewrite Hstop.
Qed.


(** C7: on a schema-valid response, a ["Homepage"] or ["Source"] key that
    [info.project_urls] lacks gives the empty string for [homepage_url] or
    [source_url], and is no error: the call returns as soon as the first
    source entry of [urls] is parsed and the six required fields are not
    empty, whatever the links are, and the record it returns has the
    empty string for an absent link.  With any other project links in
    their place the outcome is the same, up to these two fields. *)
Theorem parse_package_info_links b data pu :
  validate (PackageInfo_get_schema b) data = true →
  getitem2 data "info" "project_urls" = Ok (JObj pu) →
  (∀ i urls vm,
     has_info data i → getitem data "urls" = Ok (JArr urls) →
     source_of_urls urls = Ok (Some vm) →
     i.(i_license) ≠ "" ∧ i.(i_name) ≠ "" ∧ i.(i_package_url) ≠ "" ∧
     i.(i_project_url) ≠ "" ∧ i.(i_release_url) ≠ "" ∧ i.(i_version) ≠ "" →
     ∃ info, _parse_package_info data = Ok info ∧
             info.(homepage_url) = link pu "Homepage" ∧
             info.(source_url) = link pu "Source" ∧
             (dict_has "Homepage" pu = false → info.(homepage_url) = "") ∧
             (dict_has "Source" pu = false → info.(source_url) = "")) ∧
  (∀ info, _parse_package_info data = Ok info →
     (dict_has "Homepage" pu = false → info.(homepage_url) = "") ∧
     (dict_has "Source" pu = false → info.(source_url) = "")) ∧
  (∀ pu', link_typed pu' "Homepage" → link_typed pu' "Source" →
     _parse_package_info (with_project_urls data pu') =
       with_links pu' <$> _parse_package_info data).
Proof.
  intros Hvalid Hpu.
  destruct (response_schema_inv _ _ Hvalid) as (urls & i & Hurls & Hall & Hi & Hh & Hs & _).
  pose proof Hi as (_ & _ & _ & _ & _ & _ & _ & Hpu' & _).
  rewrite Hpu in Hpu'. injection Hpu' as ->.
  assert (Habsent : ∀ k, dict_has k (i_project_urls i) = false → link (i_project_urls i) k = "").
  { intros k. unfold link, dict_has. by destruct (dict_get _ _). }
  rewrite (parse_package_info_eq _ _ _ Hurls Hi Hh Hs). split_and!.
  - intros i' urls' vm Hi' Hurls' Hsrc Hfields.
    rewrite (has_info_unique _ _ _ Hi' Hi) in Hfields.
    rewrite Hurls in Hurls'. injection Hurls' as <-.
    rewrite Hsrc. cbn [mbind result_bind].
    apply check_info_ok in Hfields as ->. cbn [mbind result_bind].
    eexists. split; [done|]. cbn [package_info_of homepage_url source_url].
    split_and!; [done | done | apply Habsent | apply Habsent].
  - intros info Hinfo.
    destruct (source_of_urls urls) as [[vm|]| |]; cbn [mbind result_bind] in Hinfo; try done.
    destruct (check_info i) as [[]| |]; cbn [mbind result_bind] in Hinfo; try done.
    injection Hinfo as <-. cbn. split; apply Habsent.
  - intros pu' Hh' Hs'.
    rewrite (parse_package_info_eq _ urls (relinked i pu')); cbn [i_project_urls relinked];
      [| by rewrite (getitem_project_urls_urls _ _ _ Hi)
       | by apply has_info_relinked | done..].
    destruct (source_of_urls urls) as [[vm|]| |]; cbn [mbind result_bind fmap result_fmap]; try done.
    unfold check_info. cbn [relinked i_license i_name i_package_url i_project_url
      i_release_url i_version].
    fold (check_info i). by destruct (check_info i) as [[]| |].
Qed.

(** C9: a single-version fetch that succeeds returns a [releases] mapping
    with exactly one entry, from [info.version] to [info.source_metadata],
    the metadata of the first source entry of the response's [urls]; the
    response's [releases] are not read: any other value there gives the
    same result. *)
Theorem fetch_package_version_metadata_releases package wanted pm :
  fetch_package_version_metadata package wanted = Ok pm →
  pm.(releases) = {[ pm.(info).(version) := pm.(info).(source_metadata) ]} ∧
  base.size pm.(releases) = 1%nat ∧
  ∃ data urls,
    _make_request_and_validate (_calc_package_version_metadata_url package wanted)
      (PackageInfo_get_schema false) = Ok data ∧
    _parse_package_info data = Ok pm.(info) ∧
    getitem data "urls" = Ok (JArr urls) ∧
    source_of_urls urls = Ok (Some pm.(info).(source_metadata)) ∧
    ∀ rel, _parse_package_info (with_releases data rel) = Ok pm.(info).
Proof.
  unfold fetch_package_version_metadata.
  destruct (_make_request_and_validate _ _) as [data| |] eqn:Hreq; cbn [mbind result_bind]; try done.
  destruct (_parse_package_info data) as [parsed| |] eqn:Hinfo; cbn [mbind result_bind]; try done.
  intros [= <-]. cbn [info releases]. split_and!; [done | apply map_size_singleton |].
  destruct (parse_package_info_urls _ _ Hinfo) as (urls & Hurls & Hsrc).
  exists data, urls. split_and!; try done.
  intros rel. by rewrite parse_package_info_ignores_releases.
Qed.

(** C10: whatever a successful fetch returns, full or single-version, the
    source metadata of [info] and every value of [releases] is tagged
    ["source"], has an MD5 and a SHA-256 the hash validation accepts, and
    a file name that is not empty; with the hash validation the spec
    describes, the MD5 is 32 and the SHA-256 is 64 hexadecimal digits. *)
Theorem fetched_metadata_invariant package wanted pm :
  fetch_package_metadata package = Ok pm ∨
  fetch_package_version_metadata package wanted = Ok pm →
  (source_invariant pm.(info).(source_metadata) ∧
   ∀ v vm, pm.(releases) !! v = Some vm → source_invariant vm) ∧
  (hash_validation_as_specified →
   hashed_source pm.(info).(source_metadata) ∧
   ∀ v vm, pm.(releases) !! v = Some vm → hashed_source vm).
Proof.
  intros Hfetch.
  assert (Hinv : source_invariant pm.(info).(source_metadata) ∧
                 ∀ v vm, pm.(releases) !! v = Some vm → source_invariant vm).
  { destruct Hfetch as [Hfetch | Hfetch].
    - unfold fetch_package_metadata in Hfetch.
      destruct (_make_request_and_validate _ _) as [data| |]; cbn [mbind result_bind] in Hfetch; try done.
      destruct (_parse_package_info data) as [parsed| |] eqn:Hinfo; cbn [mbind result_bind] in Hfetch; try done.
      destruct (getitem data "releases" ≫= py_dict) as [rel| |]; cbn [mbind result_bind] in Hfetch; try done.
      destruct (scan_releases rel _) as [scanned| |] eqn:Hscan; cbn [mbind result_bind] in Hfetch; try done.
      destruct (_ =? _); [done|]. injection Hfetch as <-. cbn [info releases].
      apply parse_package_info_invariant in Hinfo. split; [done|].
      eapply scan_releases_invariant in Hscan; [exact Hscan|].
      by apply map_Forall_singleton.
    - unfold fetch_package_version_metadata in Hfetch.
      destruct (_make_request_and_validate _ _) as [data| |]; cbn [mbind result_bind] in Hfetch; try done.
      destruct (_parse_package_info data) as [parsed| |] eqn:Hinfo; cbn [mbind result_bind] in Hfetch; try done.
      injection Hfetch as <-. cbn [info releases].
      apply parse_package_info_invariant in Hinfo. split; [done|].
      intros v vm [<- <-]%lookup_singleton_Some. done. }
  split; [exact Hinv|]. intros [Hmd5 Hsha].
  assert (Hhashed : ∀ vm, source_invariant vm → hashed_source vm).
  { intros vm (Htag & Hm & Hs & Hf). split_and!; [done | by apply Hmd5 | by apply Hsha | done]. }
  destruct Hinv as [Hsm Hall]. split; [by apply Hhashed|].
  intros v vm Hv. by apply Hhashed, (Hall v).
Qed.

End properties.

(** C8: the message an [ApiException] is built with, in [pypi_api] and in
    [jira_api] alike: the generic, non-empty default when the given
    message is empty, and the given message otherwise. *)
Theorem ApiException_message (message : string) :
  (message = "" →
     ApiException__init__ message = "An unknown API issue was encountered." ∧
     jira_api.ApiException__init__ message = "An unknown API issue was encountered." ∧
     ApiException__init__ message ≠ "") ∧
  (message ≠ "" →
     ApiException__init__ message = message ∧
     jira_api.ApiException__init__ message = message) ∧
  (∀ A, @raise A message = ApiException (ApiException__init__ message)).
Proof.
  split_and!.
  - by intros ->.
  - intros Hm. by destruct message.
  - done.
Qed.

(** ** The claims on sample data *)

(** C1 fails on the code.  The response [zip_tar_response] has two source
    artifacts for release 1.0, [pkg-1.0.zip] and then [pkg-1.0.tar.gz]:
    the fetch stores the zip, although a file name with [".tar"] in it is
    there; with the tarball first it stores the tarball.  The loop's test
    is the integer [filename.find(".tar")], which is false only for 0. *)
Theorem fetch_package_metadata_takes_zip :
  str_contains "pkg-1.0.tar.gz" ".tar" = true ∧
  str_contains "pkg-1.0.zip" ".tar" = false ∧
  str_find "pkg-1.0.zip" ".tar" = -1 ∧
  (λ pm, pm.(releases) !! "1.0") <$> @fetch_package_metadata (serving zip_tar_response) "pkg" =
    Ok (Some (sample_metadata "pkg-1.0.zip")) ∧
  (λ pm, pm.(releases) !! "1.0") <$> @fetch_package_metadata (serving tar_zip_response) "pkg" =
    Ok (Some (sample_metadata "pkg-1.0.tar.gz")).
Proof. vm_compute. repeat split. Qed.





(** C3 on a response with a wheel only, and on one whose first source
    entry comes after a wheel. *)
Lemma parse_package_info_source_witness :
  @_parse_package_info offline
    (response_json "1.0" homepage_link [ wheel_json "pkg-1.0-py3-none-any.whl" ] []) =
    ApiException "Source artifacts are not provided!" ∧
  ∃ i, has_info two_releases_response i ∧
       @_parse_package_info offline two_releases_response =
         (_ ← check_info i;
          Ok (@package_info_of offline i (sample_metadata "pkg-1.0.tar.gz"))) ∧
       (@package_info_of offline i (sample_metadata "pkg-1.0.tar.gz")).(source_metadata) =
         sample_metadata "pkg-1.0.tar.gz".
Proof.
  split.
  - apply (@parse_package_info_source offline true
             (response_json "1.0" homepage_link [ wheel_json "pkg-1.0-py3-none-any.whl" ] [])
             [ wheel_json "pkg-1.0-py3-none-any.whl" ]);
      [ vm_compute; reflexivity | vm_compute; reflexivity | ].
    repeat constructor.
  - destruct (@parse_package_info_source offline true two_releases_response
                [ wheel_json "pkg-1.0-py3-none-any.whl"; source_json "pkg-1.0.tar.gz" ])
      as [_ Hfirst]; [ vm_compute; reflexivity | vm_compute; reflexivity | ].
    specialize (Hfirst [ wheel_json "pkg-1.0-py3-none-any.whl" ]
                  (source_json "pkg-1.0.tar.gz") [] eq_refl).
    assert (Hparse : @_parse_version_metadata offline (source_json "pkg-1.0.tar.gz") =
                       Ok (sample_metadata "pkg-1.0.tar.gz")) by (vm_compute; reflexivity).
    rewrite Hparse in Hfirst. apply Hfirst; [ repeat constructor | vm_compute; reflexivity ].
Defined.

(** C4 on [zip_tar_response]: the key 1.0 of [releases] is [info.version],
    and the artifact the scan selects replaces the seeded one. *)
Lemma fetch_package_metadata_releases_witness :
  @release_choice (serving zip_tar_response)
    (JArr [ source_json "pkg-1.0.zip"; source_json "pkg-1.0.tar.gz" ]) =
    Ok (sample_metadata "pkg-1.0.zip") ∧
  ({[ "1.0" := sample_metadata "pkg-1.0.zip" ]} : gmap string (VersionMetadata naive_datetime))
    !! "1.0" = Some (sample_metadata "pkg-1.0.zip") ∧
  ({[ "1.0" := sample_metadata "pkg-1.0.zip" ]} : gmap string (VersionMetadata naive_datetime))
    !! "0.9" = None.
Proof.
  destruct (@fetch_package_metadata_releases (serving zip_tar_response) "pkg"
              zip_tar_response
              [ ("1.0", JArr [ source_json "pkg-1.0.zip"; source_json "pkg-1.0.tar.gz" ]) ]
              {| info := sample_info homepage_link;
                 releases := {[ "1.0" := sample_metadata "pkg-1.0.zip" ]} |})
    as (_ & Hkeys & Hother).
  - vm_compute; reflexivity.
  - vm_compute; reflexivity.
  - apply (bool_decide_unpack _). vm_compute; reflexivity.
  - vm_compute; reflexivity.
  - assert (Hchoice : @release_choice (serving zip_tar_response)
              (JArr [ source_json "pkg-1.0.zip"; source_json "pkg-1.0.tar.gz" ]) =
              Ok (sample_metadata "pkg-1.0.zip")) by (vm_compute; reflexivity).
    split; [exact Hchoice|]. split.
    + destruct (Hkeys "1.0" _ (list_elem_of_here _ _)) as (chosen & Hc & Hl).
      rewrite Hchoice in Hc. injection Hc as <-. exact Hl.
    + refine (eq_trans (Hother "0.9" _) _); [| vm_compute; reflexivity ].
      apply (bool_decide_unpack _). vm_compute; reflexivity.
Defined.

(** C5, as amended, on [wheel_only_response]. *)
Lemma fetch_package_metadata_no_source_witness :
  (∃ message,
     @fetch_package_metadata (serving wheel_only_response) "pkg" = ApiException message) ∧
  @fetch_package_metadata (serving wheel_only_response) "pkg" =
    ApiException "API did not return any source artifacts.".
Proof.
  destruct (@fetch_package_metadata_no_source (serving wheel_only_response) "pkg"
              wheel_only_response
              [ ("0.9", JArr [ source_json "pkg-0.9.tar.gz" ]) ]
              "0.8" [ wheel_json "pkg-0.8-py3-none-any.whl" ] [])
    as [Hfails Hfirst].
  - vm_compute; reflexivity.
  - vm_compute; reflexivity.
  - repeat constructor.
  - split; [exact Hfails|].
    apply (Hfirst (sample_info homepage_link)
             (<[ "0.9" := sample_metadata "pkg-0.9.tar.gz" ]>
                {[ "1.0" := sample_metadata "pkg-1.0.tar.gz" ]}));
      vm_compute; reflexivity.
Defined.

(** The claim C5 as it stands fails: release 0.8 of [bad_hash_response]
    has no source artifact, but release 0.9 comes first and its MD5 is
    malformed, so that the error raised is the one about the MD5. *)
Lemma fetch_package_metadata_other_error_first :
  validate (PackageInfo_get_schema true) bad_hash_response = true ∧
  getitem bad_hash_response "releases" =
    Ok (JObj [ ("0.9", JArr [ artifact_json "pkg-0.9.tar.gz" "source" "not-a-hash" sample_time ]);
               ("0.8", JArr [ wheel_json "pkg-0.8-py3-none-any.whl" ]) ]) ∧
  @is_source (wheel_json "pkg-0.8-py3-none-any.whl") = Ok false ∧
  @fetch_package_metadata (serving bad_hash_response) "pkg" =
    ApiException "VersionMetadata MD5 hash is invalid: not-a-hash".
Proof. vm_compute. repeat split. Qed.

(** C7 on [no_links_response], which has neither link: the call returns,
    with both links empty. *)
Lemma parse_package_info_links_witness :
  (∃ info, @_parse_package_info offline no_links_response = Ok info ∧
           info.(homepage_url) = "" ∧ info.(source_url) = "") ∧
  @_parse_package_info offline (with_project_urls no_links_response homepage_link) =
    with_links homepage_link <$> @_parse_package_info offline no_links_response.
Proof.
  destruct (@parse_package_info_links offline true no_links_response [])
    as (Hreturns & _ & Hany); [ vm_compute; reflexivity | vm_compute; reflexivity | ].
  split.
  - destruct (Hreturns (relinked (sample_fields "MIT") []) [ source_json "pkg-1.0.tar.gz" ]
                (sample_metadata "pkg-1.0.tar.gz"))
      as (info & Hinfo & _ & _ & Hhome & Hsource).
    + vm_compute. repeat split.
    + vm_compute; reflexivity.
    + vm_compute; reflexivity.
    + repeat split; discriminate.
    + exists info. split; [exact Hinfo|].
      split; [ apply Hhome; reflexivity | apply Hsource; reflexivity ].
  - apply Hany; intros v Hv; vm_compute in Hv; [ injection Hv as <-; eauto | discriminate ].
Defined.

(** C9 on [wheel_only_response]: a full fetch fails on its release 0.8,
    the single-version fetch does not read it. *)
Lemma fetch_package_version_metadata_releases_witness :
  @fetch_package_metadata (serving wheel_only_response) "pkg" =
    ApiException "API did not return any source artifacts." ∧
  latest_only.(releases) =
    {[ latest_only.(info).(version) := latest_only.(info).(source_metadata) ]} ∧
  base.size latest_only.(releases) = 1%nat ∧
  ∃ data urls,
    @_make_request_and_validate (serving wheel_only_response)
      (_calc_package_version_metadata_url "pkg" "1.0") (PackageInfo_get_schema false) = Ok data ∧
    @_parse_package_info (serving wheel_only_response) data = Ok latest_only.(info) ∧
    getitem data "urls" = Ok (JArr urls) ∧
    @source_of_urls (serving wheel_only_response) urls =
      Ok (Some latest_only.(info).(source_metadata)) ∧
    ∀ rel, @_parse_package_info (serving wheel_only_response) (with_releases data rel) =
             Ok latest_only.(info).
Proof.
  split; [ vm_compute; reflexivity |].
  apply (@fetch_package_version_metadata_releases (serving wheel_only_response) "pkg" "1.0"
           latest_only).
  vm_compute; reflexivity.
Defined.

(** C10 on the full fetch of [two_releases_response], with the hash
    validation of [serving]. *)
Lemma fetched_metadata_invariant_witness :
  (@source_invariant (serving two_releases_response) two_releases.(info).(source_metadata) ∧
   ∀ v vm, two_releases.(releases) !! v = Some vm →
           @source_invariant (serving two_releases_response) vm) ∧
  hashed_source two_releases.(info).(source_metadata) ∧
  ∀ v vm, two_releases.(releases) !! v = Some vm → hashed_source vm.
Proof.
  destruct (@fetched_metadata_invariant (serving two_releases_response) "pkg" "1.0"
              two_releases) as [Hinv Hhashed].
  - left. vm_compute; reflexivity.
  - split; [exact Hinv|]. apply Hhashed.
    split; intros s; apply is_hex_hash_hex_digits.
Defined.

(** ** Further properties of the modules *)

(** *** Strings *)

Lemma append_assoc' (a b c : string) : (a +:+ b) +:+ c = a +:+ (b +:+ c).
Proof.
  induction a as [|x a IH]; [done|].
  change (String x ((a +:+ b) +:+ c) = String x (a +:+ (b +:+ c))). by f_equal.
Qed.

Lemma list_ascii_of_append (a b : string) :
  list_ascii_of_string (a +:+ b) = list_ascii_of_string a ++ list_ascii_of_string b.
Proof.
  induction a as [|x a IH]; [done|].
  change (x :: list_ascii_of_string (a +:+ b) =
          x :: (list_ascii_of_string a ++ list_ascii_of_string b)). by f_equal.
Qed.

Lemma list_ascii_of_string_inj (a b : string) :
  list_ascii_of_string a = list_ascii_of_string b → a = b.
Proof.
  intros H. rewrite <- (string_of_list_ascii_of_string a), H.
  apply string_of_list_ascii_of_string.
Qed.

Lemma append_cancel (pre a b post : string) :
  pre +:+ a +:+ post = pre +:+ b +:+ post → a = b.
Proof.
  intros H. apply (f_equal list_ascii_of_string) in H.
  rewrite !list_ascii_of_append in H.
  apply app_inv_head, app_inv_tail in H. by apply list_ascii_of_string_inj.
Qed.

(** X1: the endpoints are plain concatenations.  Distinct package names
    have distinct metadata endpoints, and nothing is escaped: the endpoint
    of version [v] of package [p] is the metadata endpoint of the package
    named [p/v]. *)
Theorem endpoints_not_escaped (package wanted : string) :
  (∀ other, _calc_package_metadata_url package = _calc_package_metadata_url other →
            package = other) ∧
  _calc_package_version_metadata_url package wanted =
    _calc_package_metadata_url (package +:+ "/" +:+ wanted).
Proof.
  split.
  - intros other H. unfold _calc_package_metadata_url in H.
    rewrite <- !(append_assoc' BASE_URL "/") in H. by apply append_cancel in H.
  - unfold _calc_package_version_metadata_url, _calc_package_metadata_url.
    by rewrite !append_assoc'.
Qed.

(** *** Schemas *)

(** X2: the schema of the full fetch asks for what the schema of the
    single-version fetch asks for, and for the key ["releases"]. *)
Theorem schema_requires_releases (data : json) :
  validate (PackageInfo_get_schema true) data = true ↔
  validate (PackageInfo_get_schema false) data = true ∧
  dict_has "releases" (obj_items data) = true.
Proof.
  rewrite !validate_unfold.
  cbn [PackageInfo_get_schema sch_type sch_required sch_properties sch_patternProperties
       sch_additionalProperties sch_items app forallb].
  destruct data; cbn [type_ok existsb has_type orb andb is_object negb obj_items];
    try (split; [discriminate | intros [? _]; discriminate]).
  rewrite ?andb_true_r.
  destruct (dict_has "releases" items); rewrite ?andb_true_r, ?andb_false_r;
    cbn [andb]; intuition congruence.
Qed.

Section request_properties.
Context `{E : Externals}.

(** *** The request *)

(** X3: [_make_request_and_validate] returns JSON exactly when the request
    is answered with status 200, the content type [application/json] and a
    body that parses and validates against the schema, and then it returns
    that body; in every other case it raises [ApiException]. *)
Theorem make_request_and_validate_returns endpoint sch :
  (∀ data,
     _make_request_and_validate endpoint sch = Ok data ↔
     ∃ response,
       requests_get endpoint HTTP_REQ_TIMEOUT = Some response ∧
       response.(status_code) = 200 ∧
       response.(headers) "content-type" = Some "application/json" ∧
       response.(json_body) = Some data ∧
       validate sch data = true) ∧
  ((∃ data, _make_request_and_validate endpoint sch = Ok data) ∨
   (∃ message, _make_request_and_validate endpoint sch = ApiException message)).
Proof.
  split.
  - intros data. split.
    + unfold _make_request_and_validate.
      destruct (requests_get _ _) as [response|]; [|done].
      destruct (status_code response =? 200) eqn:Hs; [|done]. cbn [negb].
      destruct (headers response "content-type") as [ct|] eqn:Hh; [|done].
      destruct (String.eqb ct "application/json") eqn:Hc; [|done]. cbn [negb].
      destruct (json_body response) as [j|] eqn:Hj; [|done].
      destruct (validate sch j) eqn:Hv; [|done]. intros [= <-].
      exists response. apply Z.eqb_eq in Hs. apply String.eqb_eq in Hc. by subst ct.
    + intros (response & Hr & Hs & Hh & Hj & Hv). by eapply make_request_ok.
  - unfold _make_request_and_validate.
    destruct (requests_get _ _) as [response|]; [|right; by eexists].
    destruct (negb _); [right; by eexists|].
    destruct (headers response "content-type") as [ct|]; [|right; by eexists].
    destruct (negb _); [right; by eexists|].
    destruct (json_body response) as [j|]; [|right; by eexists].
    destruct (validate sch j); [left | right]; by eexists.
Qed.

End request_properties.

Section info_properties.
Context `{E : Externals}.

(** *** The package info *)

Lemma parse_package_info_valid b data i urls :
  validate (PackageInfo_get_schema b) data = true →
  has_info data i → getitem data "urls" = Ok (JArr urls) →
  Forall valid_artifact urls ∧
  _parse_package_info data =
    found ← source_of_urls urls;
    match found with
    | None => raise "Source artifacts are not provided!"
    | Some vm => _ ← check_info i; Ok (package_info_of i vm)
    end.
Proof.
  intros Hvalid Hi Hurls.
  destruct (response_schema_inv _ _ Hvalid) as (urls' & i' & Hurls' & Hall & Hi' & Hh & Hs & _).
  rewrite Hurls in Hurls'. injection Hurls' as <-.
  rewrite (has_info_unique _ _ _ Hi' Hi) in *.
  split; [done|]. by apply parse_package_info_eq.
Qed.

Lemma parse_package_info_no_crash b data :
  validate (PackageInfo_get_schema b) data = true → no_crash (_parse_package_info data).
Proof.
  intros Hvalid.
  destruct (response_schema_inv _ _ Hvalid) as (urls & i & Hurls & Hall & Hi & Hh & Hs & _).
  rewrite (parse_package_info_eq _ _ _ Hurls Hi Hh Hs).
  pose proof (source_of_urls_no_crash _ Hall).
  destruct (source_of_urls urls) as [[vm|]| |]; cbn [mbind result_bind]; try done.
  pose proof (check_info_no_crash i). by destruct (check_info i) as [[]| |].
Qed.

(** X4: on a schema-valid response whose first source entry is parsed,
    [_parse_package_info] returns exactly when [license], [name],
    [package_url], [project_url], [release_url] and [version] are all
    non-empty, and what it returns holds the fields of ["info"] as they
    are, with the empty string for a null [description],
    [description_content_type], [docs_url] or [summary]. *)
Theorem parse_package_info_returns b data i urls vm :
  validate (PackageInfo_get_schema b) data = true →
  has_info data i → getitem data "urls" = Ok (JArr urls) →
  source_of_urls urls = Ok (Some vm) →
  ((∃ parsed, _parse_package_info data = Ok parsed) ↔
   i.(i_license) ≠ "" ∧ i.(i_name) ≠ "" ∧ i.(i_package_url) ≠ "" ∧
   i.(i_project_url) ≠ "" ∧ i.(i_release_url) ≠ "" ∧ i.(i_version) ≠ "") ∧
  (∀ parsed, _parse_package_info data = Ok parsed →
     parsed.(description) = default "" i.(i_description) ∧
     parsed.(description_content_type) = default "" i.(i_description_content_type) ∧
     parsed.(docs_url) = default "" i.(i_docs_url) ∧
     parsed.(summary) = default "" i.(i_summary) ∧
     parsed.(license) = i.(i_license) ∧ parsed.(name) = i.(i_name) ∧
     parsed.(package_url) = i.(i_package_url) ∧ parsed.(project_url) = i.(i_project_url) ∧
     parsed.(release_url) = i.(i_release_url) ∧
     parsed.(requires_python) = i.(i_requires_python) ∧
     parsed.(version) = i.(i_version) ∧ parsed.(source_metadata) = vm).
Proof.
  intros Hvalid Hi Hurls Hsrc.
  destruct (parse_package_info_valid _ _ _ _ Hvalid Hi Hurls) as [_ ->].
  rewrite Hsrc. cbn [mbind result_bind]. rewrite <- check_info_ok.
  destruct (check_info i) as [[]| |]; cbn [mbind result_bind]; split.
  - split; [done | by eexists].
  - intros parsed [= <-]. cbn. done.
  - split; [by intros [? ?] | done].
  - done.
  - split; [by intros [? ?] | done].
  - done.
Qed.

(** X5: under the same conditions, an empty required field makes
    [_parse_package_info] raise [ApiException], and the message names the
    first empty one in the order [license], [name], [package_url],
    [project_url], [release_url], [version]. *)
Theorem parse_package_info_first_empty b data i urls vm :
  validate (PackageInfo_get_schema b) data = true →
  has_info data i → getitem data "urls" = Ok (JArr urls) →
  source_of_urls urls = Ok (Some vm) →
  (i.(i_license) = "" →
     _parse_package_info data = ApiException "`PackageInfo.license` field is empty: ") ∧
  (i.(i_license) ≠ "" → i.(i_name) = "" →
     _parse_package_info data = ApiException "`PackageInfo.name` field is empty: ") ∧
  (i.(i_license) ≠ "" → i.(i_name) ≠ "" → i.(i_package_url) = "" →
     _parse_package_info data = ApiException "`PackageInfo.package_url` field is empty: ") ∧
  (i.(i_license) ≠ "" → i.(i_name) ≠ "" → i.(i_package_url) ≠ "" →
   i.(i_project_url) = "" →
     _parse_package_info data = ApiException "`PackageInfo.project_url` field is empty: ") ∧
  (i.(i_license) ≠ "" → i.(i_name) ≠ "" → i.(i_package_url) ≠ "" →
   i.(i_project_url) ≠ "" → i.(i_release_url) = "" →
     _parse_package_info data = ApiException "`PackageInfo.release_url` field is empty: ") ∧
  (i.(i_license) ≠ "" → i.(i_name) ≠ "" → i.(i_package_url) ≠ "" →
   i.(i_project_url) ≠ "" → i.(i_release_url) ≠ "" → i.(i_version) = "" →
     _parse_package_info data = ApiException "`PackageInfo.version` field is empty: ").
Proof.
  intros Hvalid Hi Hurls Hsrc.
  destruct (parse_package_info_valid _ _ _ _ Hvalid Hi Hurls) as [_ ->].
  rewrite Hsrc. cbn [mbind result_bind]. unfold check_info. rewrite !check_field.
  repeat case_decide; cbn [mbind result_bind]; split_and!; intros; first [ reflexivity | congruence ].
Qed.

End info_properties.

Section fetch_properties.
Context `{E : Externals}.

(** *** One release *)

Lemma source_artifacts_app pre post :
  source_artifacts (pre ++ post) =
    l ← source_artifacts pre; r ← source_artifacts post; Ok (l ++ r).
Proof.
  induction pre as [|a pre IH]; cbn [app source_artifacts mbind result_bind].
  - by destruct (source_artifacts post).
  - destruct (is_source a) as [[]| |]; cbn [mbind result_bind]; try done.
    destruct (_parse_version_metadata a); cbn [mbind result_bind]; try done.
    rewrite IH. destruct (source_artifacts pre); cbn [mbind result_bind]; try done.
    by destruct (source_artifacts post).
Qed.

(** X6: an artifact that is not tagged ["source"] is never parsed: taking
    it out of a release's array changes nothing in what the scan collects,
    however malformed its hashes or its timestamp. *)
Theorem source_artifacts_skips pre a post :
  is_source a = Ok false →
  source_artifacts (pre ++ a :: post) = source_artifacts (pre ++ post).
Proof.
  intros Ha. rewrite !source_artifacts_app. cbn [source_artifacts].
  rewrite Ha. done.
Qed.

(** X7: when exactly one artifact of a release is tagged ["source"],
    wherever it stands in the array, what the scan stores for the release
    is the parse of that artifact, error included. *)
Theorem release_choice_single pre a post :
  Forall (λ x, is_source x = Ok false) pre → is_source a = Ok true →
  Forall (λ x, is_source x = Ok false) post →
  release_choice (JArr (pre ++ a :: post)) = _parse_version_metadata a.
Proof.
  intros Hpre Ha Hpost. unfold release_choice. cbn [py_list mbind result_bind].
  rewrite source_artifacts_app, (source_artifacts_none _ Hpre). cbn [source_artifacts mbind result_bind].
  rewrite Ha. cbn [mbind result_bind].
  destruct (_parse_version_metadata a) as [vm| |]; cbn [mbind result_bind]; try done.
  rewrite (source_artifacts_none _ Hpost). done.
Qed.

(** X8: the selection among the source artifacts of a release.  None:
    [ApiException].  One: that one.  Two or more: the first whose file
    name does not start with [".tar"], and the first of all when every
    file name starts so.  What is selected is always one of them. *)
Theorem select_artifact_cases :
  select_artifact [] = ApiException "API did not return any source artifacts." ∧
  (∀ a, select_artifact [a] = Ok a) ∧
  (∀ a b l,
     select_artifact (a :: b :: l) =
       Ok (default a (List.find (λ x, negb (String.prefix ".tar" x.(filename)))
                        (a :: b :: l)))) ∧
  (∀ l x, select_artifact l = Ok x → x ∈ l).
Proof.
  split_and!; [done | done | apply select_artifact_spec | apply select_artifact_elem].
Qed.

Lemma release_choice_ok a chosen :
  release_choice a = Ok chosen ↔
  ∃ arts srcs, a = JArr arts ∧ source_artifacts arts = Ok srcs ∧
               select_artifact srcs = Ok chosen.
Proof.
  unfold release_choice. split.
  - destruct a as [| | | | |arts|]; cbn [py_list mbind result_bind]; try done.
    destruct (source_artifacts arts) as [srcs| |] eqn:Hs; cbn [mbind result_bind]; try done.
    intros Hsel. by exists arts, srcs.
  - intros (arts & srcs & -> & Hs & Hsel). cbn [py_list mbind result_bind].
    rewrite Hs. done.
Qed.

Lemma select_artifact_succeeds srcs :
  (∃ chosen, select_artifact srcs = Ok chosen) ↔ srcs ≠ [].
Proof.
  destruct srcs as [|a [|b l]]; cbn [select_artifact].
  - split; [by intros [? ?] | done].
  - split; [done | by eexists].
  - split; [done|]. intros _. destruct (tar_artifact _); by eexists.
Qed.

(** *** All releases *)

Lemma scan_releases_dom rel seed m :
  scan_releases rel seed = Ok m →
  dom m = dom seed ∪ list_to_set rel.*1.
Proof.
  revert seed. induction rel as [|[v a] rel IH]; intros seed Hscan.
  - injection Hscan as <-. cbn. set_solver.
  - rewrite scan_releases_cons in Hscan.
    destruct (release_choice a) as [chosen| |]; cbn [mbind result_bind] in Hscan; try done.
    rewrite (IH _ Hscan), dom_insert_L. cbn. set_solver.
Qed.

Lemma release_choice_succeeds a :
  (∃ chosen, release_choice a = Ok chosen) ↔
  ∃ arts srcs, a = JArr arts ∧ source_artifacts arts = Ok srcs ∧ srcs ≠ [].
Proof.
  split.
  - intros [chosen (arts & srcs & -> & Hs & Hsel)%release_choice_ok].
    exists arts, srcs. split_and!; [done..|]. apply select_artifact_succeeds. by eexists.
  - intros (arts & srcs & -> & Hs & [chosen Hsel]%select_artifact_succeeds).
    exists chosen. apply release_choice_ok. by exists arts, srcs.
Qed.

Lemma scan_releases_succeeds rel seed :
  (∃ m, scan_releases rel seed = Ok m) ↔
  Forall (λ kv : string * json, ∃ chosen, release_choice kv.2 = Ok chosen) rel.
Proof.
  revert seed. induction rel as [|[v a] rel IH]; intros seed.
  - split; [by constructor | by eexists].
  - rewrite scan_releases_cons, Forall_cons. cbn [snd]. split.
    + intros [m Hm].
      destruct (release_choice a) as [chosen| |] eqn:Hc; cbn [mbind result_bind] in Hm; try done.
      split; [by eexists|]. apply (IH (<[v:=chosen]> seed)). by eexists.
    + intros [[chosen Hc] Hrest]. rewrite Hc. cbn [mbind result_bind]. by apply IH.
Qed.

Lemma source_artifacts_returns arts :
  Forall (λ a, ∃ tagged, is_source a = Ok tagged) arts →
  (∃ srcs, source_artifacts arts = Ok srcs ∧ srcs ≠ []) ↔
  Exists (λ a, is_source a = Ok true) arts ∧
  Forall (λ a, is_source a = Ok true → ∃ vm, _parse_version_metadata a = Ok vm) arts.
Proof.
  assert (Hall : ∀ l,
            Forall (λ a, ∃ tagged, is_source a = Ok tagged) l →
            (∃ srcs, source_artifacts l = Ok srcs) ↔
            Forall (λ a, is_source a = Ok true → ∃ vm, _parse_version_metadata a = Ok vm) l).
  { induction 1 as [|a l [tagged Ha] _ IH]; [split; [by constructor | by eexists]|].
    rewrite Forall_cons, <- IH. cbn [source_artifacts]. rewrite Ha. cbn [mbind result_bind].
    destruct tagged.
    - destruct (_parse_version_metadata a) as [vm| |]; cbn [mbind result_bind].
      + destruct (source_artifacts l) as [rest| |]; cbn [mbind result_bind].
        * split; [intros _; split; by eexists | by eexists].
        * split; [by intros [? ?] | by intros [_ [? ?]]].
        * split; [by intros [? ?] | by intros [_ [? ?]]].
      + split; [by intros [? ?] | intros [Hvm _]; by destruct (Hvm eq_refl)].
      + split; [by intros [? ?] | intros [Hvm _]; by destruct (Hvm eq_refl)].
    - split; [by intros H; split | by intros [_ H]]. }
  assert (Hsome : ∀ l srcs,
            source_artifacts l = Ok srcs →
            srcs ≠ [] ↔ Exists (λ a, is_source a = Ok true) l).
  { induction l as [|a l IH]; intros srcs; cbn [source_artifacts].
    - intros [= <-]. rewrite Exists_nil. done.
    - destruct (is_source a) as [[]| |] eqn:Ha; cbn [mbind result_bind]; try done.
      + destruct (_parse_version_metadata a) as [vm| |]; cbn [mbind result_bind]; try done.
        destruct (source_artifacts l) as [rest| |]; cbn [mbind result_bind]; try done.
        intros [= <-]. split; [intros _; by left | done].
      + intros Hl. rewrite (IH _ Hl), Exists_cons.
        split; [by right | intros [? | ?]; [congruence | done]]. }
  intros Htags. rewrite <- (Hall _ Htags). split.
  - intros (srcs & Hs & Hne). split; [by apply (Hsome _ _ Hs) | by eexists].
  - intros [Hex [srcs Hs]]. exists srcs. split; [done | by apply (Hsome _ _ Hs)].
Qed.

(** X9: on schema-valid releases, the scan returns exactly when every
    release has at least one artifact tagged ["source"] and every artifact
    so tagged is parsed by [_parse_version_metadata]: one release without
    sources, or with a malformed source artifact, fails the whole
    fetch. *)
Theorem scan_releases_returns rel seed :
  valid_releases rel →
  (∃ m, scan_releases rel seed = Ok m) ↔
  Forall (λ kv : string * json,
            ∃ arts, kv.2 = JArr arts ∧
              Exists (λ a, is_source a = Ok true) arts ∧
              Forall (λ a, is_source a = Ok true →
                           ∃ vm, _parse_version_metadata a = Ok vm) arts)
         rel.
Proof.
  intros Hvalid. rewrite scan_releases_succeeds.
  induction Hvalid as [|[v a] rel (arts & Ha & Harts) _ IH]; [done|].
  cbn [snd] in Ha. subst a. rewrite !Forall_cons, IH. cbn [snd].
  rewrite release_choice_succeeds.
  assert (Htags : Forall (λ a, ∃ tagged, is_source a = Ok tagged) arts).
  { eapply Forall_impl; [exact Harts|]. intros a. apply is_source_valid. }
  split.
  - intros [(arts' & srcs & [= <-] & Hs & Hne) Hrest]. split; [|done].
    exists arts. split; [done|]. apply (source_artifacts_returns _ Htags). by exists srcs.
  - intros [(arts' & [= <-] & Hsrc) Hrest]. split; [|done].
    apply (source_artifacts_returns _ Htags) in Hsrc as (srcs & Hs & Hne).
    by exists arts, srcs.
Qed.

(** X10: the order in which the releases are listed does not matter to
    what a successful scan returns: listed in any other order, the
    releases give the same mapping. *)
Theorem scan_releases_order rel rel' seed m :
  rel ≡ₚ rel' → dict_wf rel →
  scan_releases rel seed = Ok m → scan_releases rel' seed = Ok m.
Proof.
  intros Hperm Hwf Hscan.
  assert (Hwf' : dict_wf rel') by (unfold dict_wf in *; by rewrite <- Hperm).
  assert (∃ m', scan_releases rel' seed = Ok m') as [m' Hscan'].
  { apply (proj2 (scan_releases_succeeds rel' seed)). rewrite <- Hperm.
    apply (proj1 (scan_releases_succeeds rel seed)). by eexists. }
  rewrite Hscan'. f_equal.
  destruct (scan_releases_lookup _ _ _ Hwf Hscan) as [Hin Hout].
  destruct (scan_releases_lookup _ _ _ Hwf' Hscan') as [Hin' Hout'].
  apply map_eq. intros v.
  destruct (decide (v ∈ rel.*1)) as [Hv | Hv].
  - apply list_elem_of_fmap in Hv as ([v' a] & -> & Hva). cbn.
    destruct (Hin _ _ Hva) as (c & Hc & ->).
    rewrite Hperm in Hva. destruct (Hin' _ _ Hva) as (c' & Hc' & ->). congruence.
  - rewrite (Hout _ Hv). apply Hout'. by rewrite <- Hperm.
Qed.

(** *** The fetches *)

(** X11: neither fetch lets an exception other than [ApiException]
    escape: on a response that passed the schema, every unchecked read of
    the JSON finds its key and a value of the type it expects. *)
Theorem fetch_raises_only_ApiException package wanted :
  no_crash (fetch_package_metadata package) ∧
  no_crash (fetch_package_version_metadata package wanted).
Proof.
  split.
  - unfold fetch_package_metadata.
    destruct (_make_request_and_validate _ _) as [data| |] eqn:Hreq; cbn [mbind result_bind];
      [| done |].
    + apply make_request_valid in Hreq.
      pose proof (parse_package_info_no_crash _ _ Hreq) as Hnc.
      destruct (_parse_package_info data) as [parsed| |]; cbn [mbind result_bind]; [|done..].
      destruct (response_schema_inv _ _ Hreq) as (_ & _ & _ & _ & _ & _ & _ & Hrels & Hhas).
      destruct (Hhas eq_refl) as [r Hr]. destruct (Hrels _ Hr) as (rel & -> & Hvalid).
      rewrite Hr. cbn [mbind result_bind py_dict].
      pose proof (scan_releases_no_crash rel
                    {[ parsed.(version) := parsed.(source_metadata) ]} Hvalid) as Hs.
      destruct (scan_releases rel _); cbn [mbind result_bind]; [|done..].
      by destruct (_ =? _).
    + unfold _make_request_and_validate in Hreq.
      destruct (requests_get _ _) as [response|]; [|done].
      destruct (negb _); [done|]. destruct (headers _ _); [|done].
      destruct (negb _); [done|]. destruct (json_body _); [|done].
      by destruct (validate _ _).
  - unfold fetch_package_version_metadata.
    destruct (_make_request_and_validate _ _) as [data| |] eqn:Hreq; cbn [mbind result_bind];
      [| done |].
    + apply make_request_valid in Hreq.
      pose proof (parse_package_info_no_crash _ _ Hreq) as Hnc.
      by destruct (_parse_package_info data).
    + unfold _make_request_and_validate in Hreq.
      destruct (requests_get _ _) as [response|]; [|done].
      destruct (negb _); [done|]. destruct (headers _ _); [|done].
      destruct (negb _); [done|]. destruct (json_body _); [|done].
      by destruct (validate _ _).
Qed.

(** X12: the keys of the [releases] a full fetch returns are the keys of
    the response's [releases] and [info.version]; in particular the
    version of [info] is always among them. *)
Theorem fetch_package_metadata_keys package pm :
  fetch_package_metadata package = Ok pm →
  is_Some (pm.(releases) !! pm.(info).(version)) ∧
  ∃ data rel,
    _make_request_and_validate (_calc_package_metadata_url package)
      (PackageInfo_get_schema true) = Ok data ∧
    getitem data "releases" = Ok (JObj rel) ∧
    dom pm.(releases) = {[ pm.(info).(version) ]} ∪ list_to_set rel.*1.
Proof.
  unfold fetch_package_metadata.
  destruct (_make_request_and_validate _ _) as [data| |] eqn:Hreq; cbn [mbind result_bind]; try done.
  destruct (_parse_package_info data) as [parsed| |]; cbn [mbind result_bind]; try done.
  destruct (getitem data "releases") as [[| | | | | |rel]| |] eqn:Hrel;
    cbn [mbind result_bind py_dict]; try done.
  destruct (scan_releases rel _) as [scanned| |] eqn:Hscan; cbn [mbind result_bind]; try done.
  destruct (_ =? _); [done|]. intros [= <-]. cbn [info releases].
  apply scan_releases_dom in Hscan. rewrite dom_singleton_L in Hscan. split.
  - apply elem_of_dom. rewrite Hscan. set_solver.
  - by exists data, rel.
Qed.

(** X13: the last guard of [fetch_package_metadata] never fires: the
    mapping is seeded before the scan and the scan only adds to it, so
    that the function is the same without the guard, and
    ["API did not return any source information."] is never its doing. *)
Theorem fetch_package_metadata_guard package :
  fetch_package_metadata package =
    (response_json ← _make_request_and_validate
                       (_calc_package_metadata_url package) (PackageInfo_get_schema true);
     parsed ← _parse_package_info response_json;
     rel_json ← getitem response_json "releases" ≫= py_dict;
     scanned ← scan_releases rel_json {[ parsed.(version) := parsed.(source_metadata) ]};
     Ok {| info := parsed; releases := scanned |}).
Proof.
  unfold fetch_package_metadata.
  destruct (_make_request_and_validate _ _) as [data| |]; cbn [mbind result_bind]; try done.
  destruct (_parse_package_info data) as [parsed| |]; cbn [mbind result_bind]; try done.
  destruct (getitem data "releases" ≫= py_dict) as [rel| |]; cbn [mbind result_bind]; try done.
  destruct (scan_releases rel _) as [scanned| |] eqn:Hscan; cbn [mbind result_bind]; try done.
  apply scan_releases_dom in Hscan.
  destruct (Z.of_nat (base.size scanned) =? 0) eqn:Hz; [|done].
  apply Z.eqb_eq in Hz. assert (base.size scanned = 0%nat) as Hsize by lia.
  apply map_size_empty_iff in Hsize. subst scanned.
  rewrite dom_empty_L, dom_singleton_L in Hscan. set_solver.
Qed.

(** X14: the [info] a successful fetch returns, full or single-version,
    has a non-empty [license], [name], [package_url], [project_url],
    [release_url] and [version]. *)
Theorem fetched_info_required package wanted pm :
  fetch_package_metadata package = Ok pm ∨
  fetch_package_version_metadata package wanted = Ok pm →
  pm.(info).(license) ≠ "" ∧ pm.(info).(name) ≠ "" ∧ pm.(info).(package_url) ≠ "" ∧
  pm.(info).(project_url) ≠ "" ∧ pm.(info).(release_url) ≠ "" ∧
  pm.(info).(version) ≠ "".
Proof.
  assert (Hinfo : ∀ b data parsed,
            validate (PackageInfo_get_schema b) data = true →
            _parse_package_info data = Ok parsed →
            parsed.(license) ≠ "" ∧ parsed.(name) ≠ "" ∧ parsed.(package_url) ≠ "" ∧
            parsed.(project_url) ≠ "" ∧ parsed.(release_url) ≠ "" ∧ parsed.(version) ≠ "").
  { intros b data parsed Hvalid Hparsed.
    destruct (response_schema_inv _ _ Hvalid) as (urls & i & Hurls & Hall & Hi & Hh & Hs & _).
    rewrite (parse_package_info_eq _ _ _ Hurls Hi Hh Hs) in Hparsed.
    destruct (source_of_urls urls) as [[vm|]| |]; cbn [mbind result_bind] in Hparsed; try done.
    destruct (check_info i) as [[]| |] eqn:Hc; cbn [mbind result_bind] in Hparsed; try done.
    injection Hparsed as <-. by apply check_info_ok in Hc. }
  intros [Hfetch | Hfetch].
  - unfold fetch_package_metadata in Hfetch.
    destruct (_make_request_and_validate _ _) as [data| |] eqn:Hreq;
      cbn [mbind result_bind] in Hfetch; try done.
    destruct (_parse_package_info data) as [parsed| |] eqn:Hp;
      cbn [mbind result_bind] in Hfetch; try done.
    destruct (getitem data "releases" ≫= py_dict) as [rel| |];
      cbn [mbind result_bind] in Hfetch; try done.
    destruct (scan_releases rel _) as [scanned| |];
      cbn [mbind result_bind] in Hfetch; try done.
    destruct (_ =? _); [done|]. injection Hfetch as <-. cbn [info].
    eapply Hinfo; [by eapply make_request_valid | done].
  - unfold fetch_package_version_metadata in Hfetch.
    destruct (_make_request_and_validate _ _) as [data| |] eqn:Hreq;
      cbn [mbind result_bind] in Hfetch; try done.
    destruct (_parse_package_info data) as [parsed| |] eqn:Hp;
      cbn [mbind result_bind] in Hfetch; try done.
    injection Hfetch as <-. cbn [info].
    eapply Hinfo; [by eapply make_request_valid | done].
Qed.

End fetch_properties.

(** *** jira_api.py *)

Section jira_properties.
Context {JIRA ConfigData : Type}.

Lemma init_with_client (w : JiraWorld JIRA ConfigData) (c : JIRA) rest : JiraApi__init__ w (c :: rest) = (Ok tt, c :: rest).
Proof. done. Qed.

Lemma construct_each_with_client (ws : list (JiraWorld JIRA ConfigData)) (c : JIRA) rest :
  construct_each ws (c :: rest) =
    (replicate (List.length ws) (Ok tt), c :: rest).
Proof.
  induction ws as [|w ws IH]; [done|]. cbn [construct_each].
  rewrite init_with_client. cbn [fst snd]. rewrite IH. done.
Qed.

Lemma init_empty (w : JiraWorld JIRA ConfigData) :
  (JiraApi__init__ w []).2 = [] ∧ (JiraApi__init__ w []).1 ≠ Ok tt ∨
  ∃ c, JiraApi__init__ w [] = (Ok tt, [c]).
Proof.
  unfold JiraApi__init__. cbn [List.length Z.of_nat Z.eqb].
  destruct (ConfigData_new w) as [ds|]; [|by left].
  destruct (_ ≫= _) as [c|]; [right; by exists c | by left].
Qed.

(** X15: [JiraApi] keeps one client at most.  Over any run of
    constructions from a fresh class attribute, in whatever worlds, the
    attribute never holds more than one client; the construction that
    succeeds on the empty attribute stores its client, and from then on
    every construction succeeds, whatever [ConfigData] and [JIRA] would
    answer, and the client stays the same one. *)
Theorem JiraApi_singleton (ws : list (JiraWorld JIRA ConfigData)) :
  (List.length (construct_each ws []).2 ≤ 1)%nat ∧
  (∀ before w after c,
     ws = before ++ w :: after →
     (construct_each before []).2 = [] →
     JiraApi__init__ w [] = (Ok tt, [c]) →
     (construct_each ws []).2 = [c] ∧
     drop (S (List.length before)) (construct_each ws []).1 =
       replicate (List.length after) (Ok tt)).
Proof.
  assert (Happ : ∀ (xs ys : list (JiraWorld JIRA ConfigData)) s,
            construct_each (xs ++ ys) s =
              ((construct_each xs s).1 ++ (construct_each ys (construct_each xs s).2).1,
               (construct_each ys (construct_each xs s).2).2)).
  { induction xs as [|x xs IH]; intros ys s; cbn [construct_each app fst snd].
    - by destruct (construct_each ys s).
    - by rewrite IH. }
  assert (Hlen : ∀ (xs : list (JiraWorld JIRA ConfigData)) s,
            List.length (construct_each xs s).1 = List.length xs).
  { induction xs as [|x xs IH]; intros s; cbn [construct_each fst List.length]; [done|].
    by rewrite IH. }
  split.
  - induction ws as [|w ws IH]; [cbn; lia|]. cbn [construct_each snd].
    destruct (init_empty w) as [[Hs _] | [c Hc]].
    + by rewrite Hs.
    + rewrite Hc. cbn [snd]. rewrite construct_each_with_client. cbn. lia.
  - intros before w after c -> Hbefore Hw. rewrite Happ, Hbefore.
    cbn [construct_each fst snd]. rewrite Hw. cbn [fst snd].
    rewrite construct_each_with_client. cbn [fst snd]. split; [done|].
    rewrite cons_middle, app_assoc. apply drop_app_length'.
    rewrite length_app, Hlen. cbn. lia.
Qed.

(** X16: on the class attribute a successful construction leaves,
    [access_jira] hands the one client to the callback and never fails on
    its own account: it returns when the callback returns and raises
    [ApiException] with its fixed message when the callback raises. *)
Theorem access_jira_after_init (w : JiraWorld JIRA ConfigData) (s s' : list JIRA)
    (callback : JIRA → option unit) :
  JiraApi__init__ w s = (Ok tt, s') →
  ∃ client rest, s' = client :: rest ∧
    access_jira callback s' =
      match callback client with
      | Some _ => Ok tt
      | None => ApiException "`access_jira()` callback raised an exception"
      end.
Proof.
  unfold JiraApi__init__. destruct s as [|c rest]; cbn [List.length Z.of_nat Z.eqb].
  - destruct (ConfigData_new w) as [ds|]; [|done].
    destruct (_ ≫= _) as [c|]; [|done]. intros [= <-]. exists c, []. done.
  - intros [= <-]. exists c, rest. done.
Qed.

End jira_properties.

(** *** The further properties on sample data *)

(** A size that is a float of integral value passes the schema and is read
    as that integer; a float with a fraction does not pass. *)
Lemma float_size_is_read :
  validate VersionMetadata_get_schema float_size_json = true ∧
  @_parse_version_metadata offline float_size_json = Ok (sample_metadata "pkg-1.0.tar.gz") ∧
  has_type t_integer (JFloat (Finite 3 (-1))) = false.
Proof. vm_compute. repeat split. Qed.

(** X4 on [two_releases_response]. *)
Lemma parse_package_info_returns_witness :
  ((∃ parsed, @_parse_package_info offline two_releases_response = Ok parsed) ↔
   (sample_fields "MIT").(i_license) ≠ "" ∧ (sample_fields "MIT").(i_name) ≠ "" ∧
   (sample_fields "MIT").(i_package_url) ≠ "" ∧ (sample_fields "MIT").(i_project_url) ≠ "" ∧
   (sample_fields "MIT").(i_release_url) ≠ "" ∧ (sample_fields "MIT").(i_version) ≠ "") ∧
  @_parse_package_info offline two_releases_response = Ok (sample_info homepage_link).
Proof.
  destruct (@parse_package_info_returns offline true two_releases_response
              (sample_fields "MIT")
              [ wheel_json "pkg-1.0-py3-none-any.whl"; source_json "pkg-1.0.tar.gz" ]
              (sample_metadata "pkg-1.0.tar.gz")) as [Hiff _].
  - vm_compute; reflexivity.
  - vm_compute. repeat split.
  - vm_compute; reflexivity.
  - vm_compute; reflexivity.
  - split; [exact Hiff|].
    destruct (proj2 Hiff) as [parsed Hparsed]; [ repeat split; discriminate |].
    rewrite Hparsed. f_equal.
    vm_compute in Hparsed. by injection Hparsed as <-.
Defined.

(** X5 on [unlicensed_response]. *)
Lemma parse_package_info_first_empty_witness :
  @_parse_package_info offline unlicensed_response =
    ApiException "`PackageInfo.license` field is empty: ".
Proof.
  destruct (@parse_package_info_first_empty offline false unlicensed_response
              (sample_fields "") [ source_json "pkg-1.0.tar.gz" ]
              (sample_metadata "pkg-1.0.tar.gz")) as [Hlicense _].
  - vm_compute; reflexivity.
  - vm_compute. repeat split.
  - vm_compute; reflexivity.
  - vm_compute; reflexivity.
  - apply Hlicense. reflexivity.
Defined.

(** X6 on a malformed wheel after a source artifact. *)
Lemma source_artifacts_skips_witness :
  @source_artifacts offline [ source_json "pkg-1.0.tar.gz"; broken_wheel_json ] =
    @source_artifacts offline [ source_json "pkg-1.0.tar.gz" ].
Proof.
  apply (@source_artifacts_skips offline [ source_json "pkg-1.0.tar.gz" ] broken_wheel_json []).
  vm_compute; reflexivity.
Defined.

(** X7 on a source artifact between two wheels. *)
Lemma release_choice_single_witness :
  @release_choice offline
    (JArr [ wheel_json "pkg-1.0-py3-none-any.whl"; source_json "pkg-1.0.tar.gz";
            broken_wheel_json ]) =
    @_parse_version_metadata offline (source_json "pkg-1.0.tar.gz").
Proof.
  apply (@release_choice_single offline [ wheel_json "pkg-1.0-py3-none-any.whl" ]
           (source_json "pkg-1.0.tar.gz") [ broken_wheel_json ]).
  - repeat constructor.
  - vm_compute; reflexivity.
  - repeat constructor.
Defined.

(** X9 on the two releases of [two_releases_response]. *)
Lemma scan_releases_returns_witness :
  ∃ m, @scan_releases offline
         [ ("0.9", JArr [ wheel_json "pkg-0.9-py3-none-any.whl"; source_json "pkg-0.9.tar.gz" ]);
           ("1.0", JArr [ source_json "pkg-1.0.tar.gz" ]) ]
         {[ "1.0" := sample_metadata "pkg-1.0.tar.gz" ]} = Ok m.
Proof.
  apply (proj2 (@scan_releases_returns offline
           [ ("0.9", JArr [ wheel_json "pkg-0.9-py3-none-any.whl"; source_json "pkg-0.9.tar.gz" ]);
             ("1.0", JArr [ source_json "pkg-1.0.tar.gz" ]) ]
           {[ "1.0" := sample_metadata "pkg-1.0.tar.gz" ]}
           ltac:(repeat constructor; eexists; (split; [reflexivity|]); repeat constructor))).
  repeat constructor.
  - eexists. split; [reflexivity|]. split.
    + apply Exists_cons_tl, Exists_cons_hd. vm_compute; reflexivity.
    + repeat constructor; intros _; eexists; vm_compute; reflexivity.
  - eexists. split; [reflexivity|]. split.
    + apply Exists_cons_hd. vm_compute; reflexivity.
    + repeat constructor; intros _; eexists; vm_compute; reflexivity.
Defined.

(** X10 on the two releases of [two_releases_response], swapped. *)
Lemma scan_releases_order_witness :
  @scan_releases offline
    [ ("1.0", JArr [ source_json "pkg-1.0.tar.gz" ]);
      ("0.9", JArr [ wheel_json "pkg-0.9-py3-none-any.whl"; source_json "pkg-0.9.tar.gz" ]) ]
    {[ "1.0" := sample_metadata "pkg-1.0.tar.gz" ]} =
    Ok two_releases.(releases).
Proof.
  apply (@scan_releases_order offline
           [ ("0.9", JArr [ wheel_json "pkg-0.9-py3-none-any.whl"; source_json "pkg-0.9.tar.gz" ]);
             ("1.0", JArr [ source_json "pkg-1.0.tar.gz" ]) ]).
  - apply perm_swap.
  - apply (bool_decide_unpack _). vm_compute; reflexivity.
  - vm_compute; reflexivity.
Defined.

(** X12 on the full fetch of [two_releases_response]. *)
Lemma fetch_package_metadata_keys_witness :
  is_Some (two_releases.(releases) !! two_releases.(info).(version)) ∧
  ∃ data rel,
    @_make_request_and_validate (serving two_releases_response)
      (_calc_package_metadata_url "pkg") (PackageInfo_get_schema true) = Ok data ∧
    getitem data "releases" = Ok (JObj rel) ∧
    dom two_releases.(releases) = {[ two_releases.(info).(version) ]} ∪ list_to_set rel.*1.
Proof.
  apply (@fetch_package_metadata_keys (serving two_releases_response) "pkg" two_releases).
  vm_compute; reflexivity.
Defined.

(** X14 on the full fetch of [two_releases_response]. *)
Lemma fetched_info_required_witness :
  two_releases.(info).(license) ≠ "" ∧ two_releases.(info).(name) ≠ "" ∧
  two_releases.(info).(package_url) ≠ "" ∧ two_releases.(info).(project_url) ≠ "" ∧
  two_releases.(info).(release_url) ≠ "" ∧ two_releases.(info).(version) ≠ "".
Proof.
  apply (@fetched_info_required (serving two_releases_response) "pkg" "1.0" two_releases).
  left. vm_compute; reflexivity.
Defined.

(** X16 in [open_world], with a callback that raises. *)
Lemma access_jira_after_init_witness :
  ∃ client rest, [ "client" ] = client :: rest ∧
    access_jira (λ _ : string, None) [ "client" ] =
      match (λ _ : string, @None unit) client with
      | Some _ => Ok tt
      | None => ApiException "`access_jira()` callback raised an exception"
      end.
Proof.
  apply (access_jira_after_init open_world [] [ "client" ] (λ _, None)).
  vm_compute; reflexivity.
Defined.
